(** * parse_session.py: a JSONL session log rendered as markdown

    A shallow embedding of [src/parse_session.py] and the properties of
    its parsing pass ([parse_jsonl]), its renderer ([generate_markdown])
    and its command-line entry point.

    Conventions of the embedding.
    - A Python [str] is a list of Unicode code points ([N]), so that
      [len], slicing and comparison count characters as Python does.
    - A decoded JSON value is a tree ([json]); a JSON object is the list
      of its items in insertion order, looked up by first match.
    - A Python call that may raise returns a [result]; exceptions that
      nothing catches travel up through the error monad.
    - What the program takes from the Python runtime and not from its own
      source ([json.loads], [datetime.fromisoformat], [str()] of a
      non-string, [sorted] on non-strings, [open]) is the interface
      [Python], a type class the development is parametric in. *)

From Stdlib Require Import ZArith String Ascii DecimalString.
From stdpp Require Import base tactics option list sorting.
From stdpp Require Import relations.

Set Warnings "-register-all".
Local Open Scope Z_scope.
Local Open Scope list_scope.

(** ** Python values *)

(** A Python [str]: a sequence of code points. *)
Definition str : Type := list N.

(** An ASCII literal of the source as a [str]. *)
Definition py (s : string) : str := N_of_ascii <$> list_ascii_of_string s.

Definition nl : str := [10%N].

(** A Python [float] as [json.loads] builds it: NaN, an infinity, or the
    finite value [m * 2 ^ e]. *)
Inductive pyfloat :=
| FNan
| FInf (negative : bool)
| FFin (m e : Z).

(** The value [json.loads] returns for a line. *)
Inductive json :=
| JNull
| JBool (b : bool)
| JInt (z : Z)
| JFloat (f : pyfloat)
| JStr (s : str)
| JList (l : list json)
| JDict (d : list (str * json)).

(** The exceptions that can leave the program. [json.JSONDecodeError] is
    not among them: it is the one exception the program catches, and it
    is an outcome of [json_loads] below. *)
Inductive exn :=
| AttributeError
| TypeError
| ValueError
| KeyError
| RecursionError
| OSError.

Inductive result (A : Type) :=
| Ok (a : A)
| Raise (e : exn).
Arguments Ok {A} a.
Arguments Raise {A} e.

#[global] Instance result_ret : MRet result := fun A a => Ok a.
#[global] Instance result_bind : MBind result := fun A B f m =>
  match m with
  | Ok a => f a
  | Raise e => Raise e
  end.

(** ** The Python runtime the program runs on *)

(** How [json.loads(line)] ends: with a value, with
    [json.JSONDecodeError], or with another exception (a [RecursionError]
    on deep nesting, the [ValueError] of an integer with too many
    digits). *)
Inductive loaded :=
| Loaded (v : json)
| JSONDecodeError
| LoadsRaises (e : exn).

Class Python := {
  (** [json.loads(line)] *)
  json_loads : str -> loaded;
  (** [datetime.fromisoformat(s).strftime('%H:%M:%S')]; [None] when
      [fromisoformat] raises [ValueError]. *)
  isoformat_hms : str -> option str;
  (** [str(v)] for a value that is not a [str], as an f-string formats it. *)
  py_repr : json -> str;
  (** [sorted(s)] for a set [s] that holds a value that is not a [str]. *)
  sorted_mixed : list json -> result (list json);
  (** The lines of [open(path, 'r')], or the exception raised on opening
      or reading it. *)
  open_lines : str -> result (list str)
}.

(** ** Built-in operations on [str] *)

Definition str_eqb (a b : str) : bool := bool_decide (a = b).

(** [s.startswith(p)] *)
Fixpoint startswith (s p : str) : bool :=
  match p, s with
  | [], _ => true
  | _ :: _, [] => false
  | c :: p', d :: s' => (c =? d)%N && startswith s' p'
  end.

(** [s.replace(old, new)] for a non-empty [old]: every occurrence, from
    the left, without overlap. [skip] counts the characters of a matched
    occurrence that are still to be dropped. *)
Fixpoint replace_from (old new : str) (skip : nat) (s : str) : str :=
  match s with
  | [] => []
  | c :: s' =>
      match skip with
      | S k => replace_from old new k s'
      | O =>
          if startswith s old
          then new ++ replace_from old new (pred (length old)) s'
          else c :: replace_from old new O s'
      end
  end.

Definition replace (s old new : str) : str := replace_from old new O s.

(** [c.isspace()], the characters [str.strip()] removes. *)
Definition isspace (c : N) : bool :=
  ((9 <=? c) && (c <=? 13) || (28 <=? c) && (c <=? 32)
   || (c =? 133) || (c =? 160) || (c =? 5760)
   || (8192 <=? c) && (c <=? 8202)
   || (c =? 8232) || (c =? 8233) || (c =? 8239) || (c =? 8287)
   || (c =? 12288))%N.

Fixpoint lstrip (s : str) : str :=
  match s with
  | c :: s' => if isspace c then lstrip s' else s
  | [] => []
  end.

(** [s.strip()] *)
Definition strip (s : str) : str := reverse (lstrip (reverse (lstrip s))).

(** [s.split(sep)] for a one-character [sep]: [cur] is the segment being
    read, reversed. *)
Fixpoint split_from (sep : N) (cur : str) (s : str) : list str :=
  match s with
  | [] => [reverse cur]
  | c :: s' =>
      if (c =? sep)%N then reverse cur :: split_from sep [] s'
      else split_from sep (c :: cur) s'
  end.

Definition split (s : str) (sep : N) : list str := split_from sep [] s.

(** [str(n)] for a non-negative [int]. *)
Definition str_of_nat (n : nat) : str :=
  py (NilEmpty.string_of_uint (Nat.to_uint n)).

(** [a <= b] on [str]: lexicographic on code points. *)
Fixpoint str_leb (a b : str) : bool :=
  match a, b with
  | [], _ => true
  | _ :: _, [] => false
  | c :: a', d :: b' => (c <? d)%N || (c =? d)%N && str_leb a' b'
  end.

Definition str_le : relation str := fun a b => str_leb a b = true.

#[global] Instance str_le_dec : RelDecision str_le.
Proof. intros a b. unfold str_le. apply _. Defined.

(** ** Dynamic typing *)

(** [d.get(k)] on the items of a dict. *)
Fixpoint lookup_item (d : list (str * json)) (k : str) : option json :=
  match d with
  | [] => None
  | (k', v) :: d' => if str_eqb k' k then Some v else lookup_item d' k
  end.

(** [v.get(k, dflt)]: only a dict has the method. *)
Definition py_get (v : json) (k : str) (dflt : json) : result json :=
  match v with
  | JDict d => Ok (default dflt (lookup_item d k))
  | _ => Raise AttributeError
  end.

(** [v == s] for a [str] literal [s]: false unless [v] is that [str]. *)
Definition eq_str (v : json) (s : str) : bool :=
  match v with
  | JStr t => str_eqb t s
  | _ => false
  end.

(** [v in names] for a list of [str] literals. *)
Definition in_strs (v : json) (names : list str) : bool :=
  existsb (eq_str v) names.

(** [bool(v)], the test of [if v:]. *)
Definition truthy (v : json) : bool :=
  match v with
  | JNull => false
  | JBool b => b
  | JInt z => negb (z =? 0)
  | JFloat (FFin m _) => negb (m =? 0)
  | JFloat _ => true
  | JStr s => negb (bool_decide (s = []))
  | JList l => negb (bool_decide (length l = O))
  | JDict d => negb (bool_decide (length d = O))
  end.

(** Whether [hash(v)] succeeds: lists and dicts are unhashable. *)
Definition hashable (v : json) : bool :=
  match v with
  | JList _ | JDict _ => false
  | _ => true
  end.

(** [m1 * 2 ^ e1 == m2 * 2 ^ e2] *)
Definition dyadic_eqb (m1 e1 m2 e2 : Z) : bool :=
  let e := Z.min e1 e2 in
  m1 * 2 ^ (e1 - e) =? m2 * 2 ^ (e2 - e).

(** A [bool], [int] or [float] seen as a number ([True] is 1). *)
Definition as_number (v : json) : option (Z + pyfloat) :=
  match v with
  | JBool b => Some (inl (if b then 1 else 0))
  | JInt z => Some (inl z)
  | JFloat f => Some (inr f)
  | _ => None
  end.

Definition number_eqb (a b : Z + pyfloat) : bool :=
  match a, b with
  | inl x, inl y => x =? y
  | inl x, inr (FFin m e) => dyadic_eqb x 0 m e
  | inr (FFin m e), inl x => dyadic_eqb m e x 0
  | inr (FFin m1 e1), inr (FFin m2 e2) => dyadic_eqb m1 e1 m2 e2
  | inr (FInf s1), inr (FInf s2) => bool_decide (s1 = s2)
  | inr FNan, inr FNan => true
  | _, _ => false
  end.

(** Whether two hashable values are the same key of a dict or the same
    element of a set: Python's [==] on them, and for NaN the identity of
    the one NaN object that [json.loads] returns. *)
Definition key_eqb (a b : json) : bool :=
  match a, b with
  | JNull, JNull => true
  | JStr s, JStr t => str_eqb s t
  | _, _ =>
      match as_number a, as_number b with
      | Some x, Some y => number_eqb x y
      | _, _ => false
      end
  end.

(** The keys of a dict, each once. *)
Fixpoint distinct_keys (d : list (str * json)) : list str :=
  match d with
  | [] => []
  | (k, _) :: d' =>
      let ks := distinct_keys d' in
      if bool_decide (k ∈ ks) then ks else k :: ks
  end.

(** [len(v)] *)
Definition py_len (v : json) : result nat :=
  match v with
  | JStr s => Ok (length s)
  | JList l => Ok (length l)
  | JDict d => Ok (length (distinct_keys d))
  | _ => Raise TypeError
  end.

(** [v[:n]]: a dict cannot be sliced ([TypeError] up to Python 3.11, where
    a slice is unhashable; [KeyError] from 3.12 on). *)
Definition py_slice (v : json) (n : nat) : result json :=
  match v with
  | JStr s => Ok (JStr (take n s))
  | JList l => Ok (JList (take n l))
  | _ => Raise TypeError
  end.

(** [v.split('/')[-1]]: only a [str] has the method; the list [split]
    returns is never empty. *)
Definition basename (v : json) : result str :=
  match v with
  | JStr s => Ok (default [] (last (split s 47%N)))
  | _ => Raise AttributeError
  end.

(** [v.strip()]: only a [str] has the method. *)
Definition py_strip (v : json) : result str :=
  match v with
  | JStr s => Ok (strip s)
  | _ => Raise AttributeError
  end.

(** [f"{v}"] *)
Definition format `{Python} (v : json) : str :=
  match v with
  | JStr s => s
  | _ => py_repr v
  end.

(** A [for] loop whose body may raise: the first exception ends it. *)
Fixpoint for_each {A S : Type} (body : S -> A -> result S) (st : S)
    (l : list A) : result S :=
  match l with
  | [] => Ok st
  | x :: l' => st' ← body st x; for_each body st' l'
  end.

(** ** The data of the parsing pass *)

(** The dicts [parse_jsonl] appends to [events], by their ['type']. *)
Inductive event :=
| EvUser (time text : str)
| EvAssistant (time text : str)
| EvTool (time : str) (tool details : json).

Definition ev_time (e : event) : str :=
  match e with
  | EvUser t _ | EvAssistant t _ | EvTool t _ _ => t
  end.

Definition is_user (e : event) : bool :=
  match e with
  | EvUser _ _ => true
  | _ => false
  end.

(** The three accumulators of [parse_jsonl]: [tool_uses], a
    [defaultdict(int)], as its items in insertion order; [files_modified],
    a [set], as its elements, each once. *)
Record parse_state := {
  events : list event;
  tool_uses : list (json * nat);
  files_modified : list json
}.

Definition initial : parse_state :=
  {| events := []; tool_uses := []; files_modified := [] |}.

(** [c[k] += 1] on a [defaultdict(int)]. *)
Fixpoint incr (k : json) (c : list (json * nat)) : list (json * nat) :=
  match c with
  | [] => [(k, 1%nat)]
  | (k', n) :: c' =>
      if key_eqb k' k then (k', S n) :: c' else (k', n) :: incr k c'
  end.

Definition dict_incr (c : list (json * nat)) (k : json)
    : result (list (json * nat)) :=
  if hashable k then Ok (incr k c) else Raise TypeError.

(** [c[k]] read without inserting: 0 for a key that is not there. *)
Fixpoint count_of (c : list (json * nat)) (k : json) : nat :=
  match c with
  | [] => O
  | (k', n) :: c' => if key_eqb k' k then n else count_of c' k
  end.

(** [s.add(x)] *)
Definition set_add (s : list json) (x : json) : result (list json) :=
  if hashable x
  then Ok (if existsb (fun y => key_eqb y x) s then s else s ++ [x])
  else Raise TypeError.

(** ** [parse_timestamp] and [extract_message_text] *)

Section Program.
Context `{Python}.

Definition parse_timestamp (ts_str : json) : result str :=
  match ts_str with
  | JStr s =>
      match isoformat_hms (replace s (py "Z") (py "+00:00")) with
      | Some hms => Ok hms
      | None => Raise ValueError
      end
  | _ => Raise AttributeError
  end.

Definition command_tags : list str :=
  [py "<command-message>"; py "</command-message>";
   py "<command-name>"; py "</command-name>";
   py "<command-args>"; py "</command-args>"].

(** The [for item in content] loop of [extract_message_text]. *)
Fixpoint first_text (content : list json) : result str :=
  match content with
  | [] => Ok []
  | item :: rest =>
      match item with
      | JDict _ =>
          ty ← py_get item (py "type") JNull;
          if eq_str ty (py "text")
          then t ← py_get item (py "text") (JStr []); py_strip t
          else first_text rest
      | _ => first_text rest
      end
  end.

Definition extract_message_text (content : json) : result str :=
  match content with
  | JStr s =>
      Ok (strip (foldl (fun text tag => replace text tag []) s command_tags))
  | JList l => first_text l
  | _ => Ok []
  end.

(** ** [parse_jsonl] *)

Definition is_running : str := py "is running" ++ [8230%N].

Definition mutating_tools : list str :=
  [py "Edit"; py "Write"; py "MultiEdit"].

Definition ellipsis : str := py "...".

(** [text[:n] + '...' if len(text) > n else text] *)
Definition truncate (n : nat) (text : str) : str :=
  if (n <? length text)%nat then take n text ++ ellipsis else text.

(** The body of [for item in content], for one block of an assistant
    entry. *)
Definition process_block (timestamp : json) (st : parse_state) (item : json)
    : result parse_state :=
  ty ← py_get item (py "type") JNull;
  if eq_str ty (py "tool_use") then
    tool_name ← py_get item (py "name") (JStr []);
    uses ← dict_incr (tool_uses st) tool_name;
    files ←
      (if in_strs tool_name mutating_tools then
         input ← py_get item (py "input") (JDict []);
         file_path ← py_get input (py "file_path") (JStr []);
         if truthy file_path then set_add (files_modified st) file_path
         else Ok (files_modified st)
       else Ok (files_modified st));
    time ← parse_timestamp timestamp;
    details ← py_get item (py "input") (JDict []);
    Ok {| events := events st ++ [EvTool time tool_name details];
          tool_uses := uses;
          files_modified := files |}
  else if eq_str ty (py "text") then
    t ← py_get item (py "text") (JStr []);
    text ← py_strip t;
    if bool_decide (text = []) then Ok st
    else
      time ← parse_timestamp timestamp;
      Ok {| events := events st ++ [EvAssistant time text];
            tool_uses := tool_uses st;
            files_modified := files_modified st |}
  else Ok st.

(** The [try] body, after [json.loads] has returned [event]. *)
Definition process_event (st : parse_state) (event : json)
    : result parse_state :=
  timestamp ← py_get event (py "timestamp") (JStr []);
  event_type ← py_get event (py "type") (JStr []);
  if eq_str event_type (py "user") then
    message ← py_get event (py "message") (JDict []);
    content ← py_get message (py "content") (JStr []);
    text ← extract_message_text content;
    if negb (bool_decide (text = [])) && negb (startswith text is_running)
    then
      time ← parse_timestamp timestamp;
      Ok {| events := events st ++ [EvUser time (truncate 100 text)];
            tool_uses := tool_uses st;
            files_modified := files_modified st |}
    else Ok st
  else if eq_str event_type (py "assistant") then
    message ← py_get event (py "message") (JDict []);
    content ← py_get message (py "content") (JList []);
    for_each (process_block timestamp) st
      (match content with JList l => l | _ => [] end)
  else Ok st.

(** One turn of [for line in f]: [except json.JSONDecodeError: continue]
    catches the failure of [json.loads] and nothing else. *)
Definition process_line (st : parse_state) (line : str) : result parse_state :=
  match json_loads line with
  | Loaded event => process_event st event
  | JSONDecodeError => Ok st
  | LoadsRaises e => Raise e
  end.

Definition parse_lines (lines : list str) : result parse_state :=
  for_each process_line initial lines.

Definition parse_jsonl (file_path : str) : result parse_state :=
  lines ← open_lines file_path;
  parse_lines lines.

(** ** [generate_markdown] *)

Definition header (start_time end_time : str) : str :=
  py "# Claude Session Summary" ++ nl ++ nl
  ++ py "**Date**: July 27, 2025" ++ nl
  ++ py "**Duration**: " ++ start_time ++ py " - " ++ end_time ++ nl ++ nl
  ++ py "## Session Overview" ++ nl ++ nl
  ++ py "This session focused on redesigning Patina's session management system."
  ++ nl ++ nl
  ++ py "## Timeline" ++ nl ++ nl.

(** The line prefixes of the tool renderings, with their emoji. *)
Definition executed : str := py "- " ++ [128295%N] ++ py " Executed: `".
Definition modified : str := py "- " ++ [128221%N] ++ py " Modified: `".
Definition read : str := py "- " ++ [128065%N; 65039%N] ++ py " Read: `".
Definition searched : str := py "- " ++ [128269%N] ++ py " Searched for: `".

(** What one turn of [for event in events] adds to [md]. *)
Definition render_event (event : event) : result str :=
  match event with
  | EvUser time text =>
      Ok (nl ++ py "### [" ++ time ++ py "] User" ++ nl
          ++ py "> " ++ text ++ nl)
  | EvAssistant time text =>
      if (200 <? length text)%nat
      then Ok (nl ++ py "**Claude**: " ++ (take 200 text ++ ellipsis) ++ nl)
      else Ok (nl ++ py "**Claude**: " ++ text ++ nl)
  | EvTool time tool details =>
      if eq_str tool (py "Bash") then
        cmd ← py_get details (py "command") (JStr []);
        n ← py_len cmd;
        if (80 <? n)%nat
        then
          shown ← py_slice cmd 80;
          Ok (executed ++ format shown ++ py "...`" ++ nl)
        else Ok (executed ++ format cmd ++ py "`" ++ nl)
      else if in_strs tool mutating_tools then
        file_path ← py_get details (py "file_path") (JStr []);
        name ← basename file_path;
        Ok (modified ++ name ++ py "`" ++ nl)
      else if eq_str tool (py "Read") then
        file_path ← py_get details (py "file_path") (JStr []);
        name ← basename file_path;
        Ok (read ++ name ++ py "`" ++ nl)
      else if eq_str tool (py "Grep") then
        pattern ← py_get details (py "pattern") (JStr []);
        Ok (searched ++ format pattern ++ py "`" ++ nl)
      else Ok []
  end.

(** [sorted(items, key=lambda x: x[1], reverse=True)]: by descending count;
    the sort is stable, so items of equal count keep their order. *)
Fixpoint insert_by_count (x : json * nat) (l : list (json * nat))
    : list (json * nat) :=
  match l with
  | [] => [x]
  | y :: l' =>
      if (x.2 <? y.2)%nat then y :: insert_by_count x l' else x :: l
  end.

Definition sorted_by_count (items : list (json * nat)) : list (json * nat) :=
  foldr insert_by_count [] items.

(** The elements of a set when all of them are [str]. *)
Definition all_strs (s : list json) : option (list str) :=
  mapM (fun v => match v with JStr p => Some p | _ => None end) s.

(** [sorted(s)] for a set [s]. *)
Definition py_sorted (s : list json) : result (list json) :=
  match all_strs s with
  | Some paths => Ok (JStr <$> merge_sort str_le paths)
  | None => sorted_mixed s
  end.

Definition usage_line (item : json * nat) : str :=
  py "- " ++ format item.1 ++ py ": " ++ str_of_nat item.2 ++ py " times" ++ nl.

Definition file_line (file_path : json) : str :=
  py "- `" ++ format file_path ++ py "`" ++ nl.

Definition no_events : str := py "No events found in session.".

Definition generate_markdown (events : list event)
    (tool_uses : list (json * nat)) (files_modified : list json)
    : result str :=
  match events with
  | [] => Ok no_events
  | first :: _ =>
      let start_time := ev_time first in
      let end_time := ev_time (default first (last events)) in
      md ← for_each
             (fun md event => line ← render_event event; Ok (md ++ line))
             (header start_time end_time) events;
      let md := md ++ nl ++ py "## Session Statistics" ++ nl ++ nl in
      let md := md ++ py "- **Total interactions**: "
                   ++ str_of_nat (length (List.filter is_user events)) ++ nl in
      let md := md ++ py "- **Files modified**: "
                   ++ str_of_nat (length files_modified) ++ nl in
      let md := md ++ nl ++ py "### Tool Usage:" ++ nl in
      let md := foldl (fun md item => md ++ usage_line item) md
                  (sorted_by_count tool_uses) in
      if bool_decide (files_modified = []) then Ok md
      else
        let md := md ++ nl ++ py "## Files Modified" ++ nl ++ nl in
        paths ← py_sorted files_modified;
        Ok (foldl (fun md file_path => md ++ file_line file_path) md paths)
  end.

(** ** The command-line entry point *)

Inductive termination :=
| Exit (code : Z)
| Uncaught (e : exn).

(** What a run leaves behind: the text its statements wrote to standard
    output and to standard error, and how it ended. The traceback the
    interpreter prints for an uncaught exception is told by [status]. *)
Record run := {
  stdout : str;
  stderr : str;
  status : termination
}.

Definition usage : str := py "Usage: python parse_session.py <jsonl_file>".

(** The [__main__] block, on [sys.argv]. [print] writes to standard
    output, which is taken to encode every text it is given (a report
    that holds a lone surrogate would make the real [print] raise
    [UnicodeEncodeError]). *)
Definition main (argv : list str) : run :=
  if negb (length argv =? 2)%nat
  then {| stdout := usage ++ nl; stderr := []; status := Exit 1 |}
  else
    match
      (st ← parse_jsonl (default [] (argv !! 1%nat));
       generate_markdown (events st) (tool_uses st) (files_modified st))
    with
    | Ok markdown =>
        {| stdout := markdown ++ nl; stderr := []; status := Exit 0 |}
    | Raise e => {| stdout := []; stderr := []; status := Uncaught e |}
    end.

End Program.

Arguments py : simpl never.

(** ** The report, section by section

    The layout of the rendering contract, to compare [generate_markdown]
    with: a header, the timeline, the statistics with the tool usage
    list, and the list of modified files when there is one. *)

Definition totals (events : list event) (files_modified : list json) : str :=
  nl ++ py "## Session Statistics" ++ nl ++ nl
  ++ py "- **Total interactions**: "
  ++ str_of_nat (length (List.filter is_user events)) ++ nl
  ++ py "- **Files modified**: " ++ str_of_nat (length files_modified) ++ nl.

Definition tool_usage `{Python} (tool_uses : list (json * nat)) : str :=
  nl ++ py "### Tool Usage:" ++ nl
  ++ concat (usage_line <$> sorted_by_count tool_uses).

Definition statistics `{Python} (events : list event)
    (tool_uses : list (json * nat)) (files_modified : list json) : str :=
  totals events files_modified ++ tool_usage tool_uses.

Definition files_section (paths : list str) : str :=
  match paths with
  | [] => []
  | _ :: _ =>
      nl ++ py "## Files Modified" ++ nl ++ nl
      ++ concat ((fun path => py "- `" ++ path ++ py "`" ++ nl) <$> paths)
  end.

(** The events a line adds, and the events a block adds. *)
Definition line_events `{Python} (line : str) : list event :=
  match process_line initial line with
  | Ok st => events st
  | Raise _ => []
  end.

Definition block_events `{Python} (timestamp item : json) : list event :=
  match process_block timestamp initial item with
  | Ok st => events st
  | Raise _ => []
  end.

(** A step that appends [new] to [events], whatever the state it starts
    from: what it appends to [events] does not depend on the state it
    starts from, and neither does its success. *)
Definition appends {A : Type} (step : parse_state -> A -> result parse_state)
    (x : A) (new : list event) : Prop :=
  forall st, exists st', step st x = Ok st' /\ events st' = events st ++ new.

(** What the parsing pass keeps true of its accumulators: every element
    of [files_modified] is the file_path of a recorded event of a
    file-mutating tool, and the elements that are [str] are distinct. *)
Definition recorded (st : parse_state) : Prop :=
  (forall x, x ∈ files_modified st ->
     exists time tool details,
       EvTool time tool details ∈ events st
       /\ in_strs tool mutating_tools = true
       /\ py_get details (py "file_path") (JStr []) = Ok x)
  /\ (forall paths, files_modified st = JStr <$> paths -> NoDup paths).

(** ** A runtime for the examples

    [demo] decodes the few lines listed in [demo_decoded] and rejects
    every other line (a line is named there, not spelled: the line
    [hello] stands for the JSON text of the value next to it); it reads
    the time of day off a timestamp of the shape
    [YYYY-MM-DDTHH:MM:SS+00:00]; its files are those of [demo_files]. *)

Definition obj (items : list (string * json)) : json :=
  JDict ((fun kv => (py kv.1, kv.2)) <$> items).

Definition jstr (text : string) : json := JStr (py text).

Definition demo_stamp : json := jstr "2025-07-27T10:00:00Z".

Definition demo_user (content : json) : json :=
  obj [("type", jstr "user"); ("timestamp", demo_stamp);
       ("message", obj [("content", content)])]%string.

Definition demo_block (name : string) (input : json) : json :=
  obj [("type", jstr "tool_use"); ("name", jstr name); ("input", input)]%string.

Definition demo_tool (name : string) (input : json) : json :=
  obj [("type", jstr "assistant"); ("timestamp", demo_stamp);
       ("message", obj [("content", JList [demo_block name input])])]%string.

Definition demo_path : json := obj [("file_path", jstr "/a/b/c.txt")]%string.


Definition demo_decoded : list (str * json) :=
  [(py "hello", demo_user (jstr "  hello  "));
   (py "running", demo_user (JStr (is_running ++ py " foo")));
   (py "write", demo_tool "Write" demo_path);
   (py "edit", demo_tool "Edit" demo_path);
   (py "write2",
    demo_tool "Write" (obj [("file_path", jstr "/a/a.txt")]%string));
   (py "task", demo_tool "Task" (obj []));
   (py "summary", obj [("type", jstr "summary")]%string);
   (py "array", JList []);
   (py "quiet",
    obj [("type", jstr "user"); ("timestamp", JNull);
         ("message", obj [("content", jstr "   ")])]%string);
   (py "system",
    obj [("type", jstr "system"); ("timestamp", jstr "garbage")]%string);
   (py "badstamp",
    obj [("type", jstr "user"); ("timestamp", jstr "yesterday");
         ("message", obj [("content", jstr "hello")])]%string)].

Definition demo_hms (stamp : str) : option str :=
  if bool_decide (length stamp = 25%nat)
     && bool_decide (stamp !! 10%nat = Some 84%N)
  then Some (take 8 (drop 11 stamp))
  else None.

Definition demo_files : list (str * list str) :=
  [(py "session.jsonl",
    [py "hello"; py "not json"; py "write"; py "task"; py "edit"; py "write2"]);
   (py "clean.jsonl",
    [py "hello"; py "write"; py "task"; py "edit"; py "write2"]);
   (py "empty.jsonl", []);
   (py "noise.jsonl", [py "not json"; py "{"; py "summary"]);
   (py "fatal.jsonl", [py "hello"; py "badstamp"; py "write"])].

Fixpoint assoc {V : Type} (table : list (str * V)) (k : str) : option V :=
  match table with
  | [] => None
  | (k', v) :: table' => if str_eqb k' k then Some v else assoc table' k
  end.

Definition demo : Python := {|
  json_loads line :=
    match assoc demo_decoded line with
    | Some v => Loaded v
    | None => JSONDecodeError
    end;
  isoformat_hms := demo_hms;
  py_repr _ := py "?";
  sorted_mixed _ := Raise TypeError;
  open_lines path :=
    match assoc demo_files path with
    | Some lines => Ok lines
    | None => Raise OSError
    end
|}.

(** An assistant entry with the given content blocks, and a text
    block. *)
Definition demo_text (text : string) : json :=
  obj [("type", jstr "text"); ("text", jstr text)]%string.

Definition demo_assistant (blocks : list json) : json :=
  obj [("type", jstr "assistant"); ("timestamp", demo_stamp);
       ("message", obj [("content", JList blocks)])]%string.


(** ** Vocabulary of the further properties *)

(** A text with no whitespace at either end, as [str.strip] leaves it. *)
Definition trimmed (text : str) : Prop :=
  (forall c, head text = Some c -> isspace c = false)
  /\ (forall c, last text = Some c -> isspace c = false).

(** Whether an event is an invocation of the tool [name], and how many
    of them a list of events holds. *)
Definition is_tool (name : str) (e : event) : bool :=
  match e with
  | EvTool _ tool _ => eq_str tool name
  | _ => false
  end.

Definition invocations (name : str) (events : list event) : nat :=
  length (List.filter (is_tool name) events).

Definition is_tool_event (e : event) : bool :=
  match e with
  | EvTool _ _ _ => true
  | _ => false
  end.

(** How the set of modified files moves when the event of the tool
    [name] with input [details] is recorded: only a file-mutating tool
    with a truthy file_path adds to it. *)
Definition tracks (name details : json) (before after : list json) : Prop :=
  if in_strs name mutating_tools then
    exists file_path,
      py_get details (py "file_path") (JStr []) = Ok file_path
      /\ if truthy file_path then set_add before file_path = Ok after
         else after = before
  else after = before.

(** The three ways in which [parse_jsonl] moves its accumulators: it
    records a user message, an assistant message, or a tool invocation.
    Every successful parse is a sequence of such moves (see
    [parse_lines_moves]). *)
Inductive moves `{Python} : parse_state -> parse_state -> Prop :=
| moves_user st timestamp time text :
    parse_timestamp timestamp = Ok time ->
    text ≠ [] ->
    trimmed text ->
    startswith text is_running = false ->
    moves st {| events := events st ++ [EvUser time (truncate 100 text)];
                tool_uses := tool_uses st;
                files_modified := files_modified st |}
| moves_assistant st timestamp time text :
    parse_timestamp timestamp = Ok time ->
    text ≠ [] ->
    trimmed text ->
    moves st {| events := events st ++ [EvAssistant time text];
                tool_uses := tool_uses st;
                files_modified := files_modified st |}
| moves_tool st timestamp time name details files :
    parse_timestamp timestamp = Ok time ->
    hashable name = true ->
    tracks name details (files_modified st) files ->
    moves st {| events := events st ++ [EvTool time name details];
                tool_uses := incr name (tool_uses st);
                files_modified := files |}.

(** Keys of a counter no two of which are equal as Python keys. *)
Fixpoint keys_apart (c : list (json * nat)) : Prop :=
  match c with
  | [] => True
  | (k, _) :: c' =>
      Forall (fun entry => key_eqb k entry.1 = false) c' /\ keys_apart c'
  end.

(** What holds of a recorded event: its time is one [parse_timestamp]
    returned; a user text is not empty, has at most 100 characters and
    the three of "...", starts with neither whitespace nor
    "is running…"; an assistant text is not empty and is stripped; a tool
    name is hashable. *)
Definition well_kept `{Python} (e : event) : Prop :=
  (exists timestamp, parse_timestamp timestamp = Ok (ev_time e))
  /\ match e with
     | EvUser _ text =>
         text ≠ []
         /\ (length text <= 103)%nat
         /\ (forall c, head text = Some c -> isspace c = false)
         /\ startswith text is_running = false
     | EvAssistant _ text => text ≠ [] /\ trimmed text
     | EvTool _ tool _ => hashable tool = true
     end.

(** The order of the Tool Usage list: by descending count. *)
Definition by_count_desc : relation (json * nat) :=
  fun a b => (b.2 <= a.2)%nat.

(** Whether the field [k] of the input [details] is absent or a string,
    and whether an event has the fields its rendering reads in the type
    the rendering needs. *)
Definition str_or_absent (details : json) (k : str) : bool :=
  match details with
  | JDict d =>
      match lookup_item d k with
      | None | Some (JStr _) => true
      | Some _ => false
      end
  | _ => false
  end.

Definition renderable (e : event) : bool :=
  match e with
  | EvTool _ tool details =>
      if eq_str tool (py "Bash") then str_or_absent details (py "command")
      else if in_strs tool mutating_tools || eq_str tool (py "Read")
      then str_or_absent details (py "file_path")
      else if eq_str tool (py "Grep")
      then match details with JDict _ => true | _ => false end
      else true
  | _ => true
  end.

(** * Properties *)

Section Properties.
Context `{Python}.

#[local] Opaque py.

(** ** The loop combinator *)

Lemma for_each_app {A S : Type} (body : S -> A -> result S) st l1 l2 :
  for_each body st (l1 ++ l2)
  = (st' ← for_each body st l1; for_each body st' l2).
Proof.
  revert st. induction l1 as [|x l1 IH]; intros st; simpl; [done|].
  destruct (body st x) as [st1|e]; simpl; [apply IH | done].
Qed.

Lemma for_each_raise {A S : Type} (body : S -> A -> result S) st l1 x l2 st1 e :
  for_each body st l1 = Ok st1 ->
  body st1 x = Raise e ->
  for_each body st (l1 ++ x :: l2) = Raise e.
Proof.
  intros H1 Hx. rewrite for_each_app, H1. simpl. by rewrite Hx.
Qed.

(** ** The command line *)

Lemma main_usage argv :
  length argv ≠ 2%nat ->
  main argv = {| stdout := usage ++ nl; stderr := []; status := Exit 1 |}.
Proof.
  intros Hlen. unfold main.
  destruct (Nat.eqb_spec (length argv) 2) as [Heq|_]; [done|reflexivity].
Qed.

Lemma main_run prog file :
  main [prog; file]
  = match
      (st ← parse_jsonl file;
       generate_markdown (events st) (tool_uses st) (files_modified st))
    with
    | Ok markdown =>
        {| stdout := markdown ++ nl; stderr := []; status := Exit 0 |}
    | Raise e => {| stdout := []; stderr := []; status := Uncaught e |}
    end.
Proof. reflexivity. Qed.

(** C2, as amended: whenever the number of arguments after the program
    name is not exactly one, the program prints the usage message, and it
    prints it to standard output ([print] without a [file] argument);
    standard error stays empty, and the exit code is 1. *)
Theorem usage_on_wrong_arity (argv : list str)
    (Harity : length argv ≠ 2%nat) :
  stdout (main argv) = py "Usage: python parse_session.py <jsonl_file>" ++ nl
  /\ stderr (main argv) = []
  /\ status (main argv) = Exit 1.
Proof. rewrite (main_usage argv Harity). done. Qed.

(** ** The empty report *)

Lemma process_line_skip st line :
  json_loads line = JSONDecodeError -> process_line st line = Ok st.
Proof. intros Hbad. unfold process_line. by rewrite Hbad. Qed.

Lemma process_line_decoded st line event :
  json_loads line = Loaded event ->
  process_line st line = process_event st event.
Proof. intros Hgood. unfold process_line. by rewrite Hgood. Qed.

Lemma skip_all lines st :
  Forall (fun line => json_loads line = JSONDecodeError) lines ->
  for_each process_line st lines = Ok st.
Proof.
  induction 1 as [|line lines Hline _ IH]; simpl; [done|].
  rewrite (process_line_skip st line Hline). exact IH.
Qed.

(** C3: a parse that emits no record renders as exactly
    "No events found in session."; that is the case of a file with no line
    and of a file none of whose lines decodes as JSON, and the program
    then prints that text and exits with code 0. *)
Theorem no_events_report :
  (forall tool_uses files_modified,
      generate_markdown [] tool_uses files_modified
      = Ok (py "No events found in session."))
  /\ (forall lines,
        Forall (fun line => json_loads line = JSONDecodeError) lines ->
        parse_lines lines = Ok initial)
  /\ (forall prog file lines st,
        open_lines file = Ok lines ->
        parse_lines lines = Ok st ->
        events st = [] ->
        generate_markdown (events st) (tool_uses st) (files_modified st)
        = Ok (py "No events found in session.")
        /\ main [prog; file]
           = {| stdout := py "No events found in session." ++ nl;
                stderr := [];
                status := Exit 0 |}).
Proof.
  split; [done|]. split; [intros lines; apply skip_all|].
  intros prog file lines st Hopen Hparse Hnone.
  rewrite main_run. unfold parse_jsonl. rewrite Hopen. simpl.
  rewrite Hparse. simpl. rewrite Hnone. done.
Qed.

(** ** Lines that are not JSON *)

(** C4: a line that [json.loads] rejects leaves the three accumulators as
    they were and the loop goes on, so the parse, and with it everything
    the program prints, is that of the file without the line; an
    exception raised while a decoded line is processed is not caught: it
    ends the parse and the program. *)
Theorem malformed_line_skipped (line : str)
    (Hbad : json_loads line = JSONDecodeError) :
  (forall st, process_line st line = Ok st)
  /\ (forall before after,
        parse_lines (before ++ line :: after) = parse_lines (before ++ after))
  /\ (forall prog file file' before after,
        open_lines file = Ok (before ++ line :: after) ->
        open_lines file' = Ok (before ++ after) ->
        main [prog; file] = main [prog; file'])
  /\ (forall prog file before other after st event e,
        open_lines file = Ok (before ++ other :: after) ->
        parse_lines before = Ok st ->
        json_loads other = Loaded event /\ process_event st event = Raise e
        \/ json_loads other = LoadsRaises e ->
        parse_lines (before ++ other :: after) = Raise e
        /\ main [prog; file]
           = {| stdout := []; stderr := []; status := Uncaught e |}).
Proof.
  assert (Hskip : forall st, process_line st line = Ok st).
  { intros st. by apply process_line_skip. }
  assert (Hdrop : forall before after,
             parse_lines (before ++ line :: after)
             = parse_lines (before ++ after)).
  { intros before after. unfold parse_lines. rewrite !for_each_app.
    destruct (for_each process_line initial before) as [st|e]; simpl; [|done].
    by rewrite Hskip. }
  split; [exact Hskip|]. split; [exact Hdrop|]. split.
  - intros prog file file' before after Hfile Hfile'.
    rewrite !main_run. unfold parse_jsonl. rewrite Hfile, Hfile'. simpl.
    by rewrite Hdrop.
  - intros prog file before other after st event e Hfile Hbefore Hraise.
    assert (Hfatal : parse_lines (before ++ other :: after) = Raise e).
    { unfold parse_lines in *. eapply for_each_raise; [eassumption|].
      destruct Hraise as [[Hgood Hraise]|Hloads].
      - by rewrite (process_line_decoded _ _ _ Hgood).
      - unfold process_line. by rewrite Hloads. }
    split; [exact Hfatal|].
    rewrite main_run. unfold parse_jsonl. rewrite Hfile. simpl.
    by rewrite Hfatal.
Qed.

(** ** Keys of the usage counter and elements of the set *)

Lemma str_eqb_eq a b : str_eqb a b = true <-> a = b.
Proof. unfold str_eqb. apply bool_decide_eq_true. Qed.

Lemma eq_str_true v name : eq_str v name = true <-> v = JStr name.
Proof.
  destruct v; simpl; try (split; [discriminate|intros [=]]).
  rewrite str_eqb_eq. split; [by intros ->|by intros [= ->]].
Qed.

Lemma dyadic_eqb_refl m e : dyadic_eqb m e m e = true.
Proof. unfold dyadic_eqb. apply Z.eqb_refl. Qed.

Lemma key_eqb_refl k : hashable k = true -> key_eqb k k = true.
Proof.
  destruct k as [|b|z|f|t|l|d]; simpl; try done; intros _.
  - by destruct b.
  - apply Z.eqb_refl.
  - destruct f as [|sign|m e]; simpl; [done|by apply bool_decide_eq_true|].
    apply dyadic_eqb_refl.
  - by apply str_eqb_eq.
Qed.

Lemma key_eqb_str k name : key_eqb k (JStr name) = true <-> k = JStr name.
Proof.
  destruct k as [|b|z|f|t|l|d]; simpl; try (split; [discriminate|intros [=]]).
  rewrite str_eqb_eq. split; [by intros ->|by intros [= ->]].
Qed.

Lemma count_of_incr k c :
  key_eqb k k = true -> count_of (incr k c) k = S (count_of c k).
Proof.
  intros Hrefl. induction c as [|[k' n] c IH]; simpl.
  - by rewrite Hrefl.
  - destruct (key_eqb k' k) eqn:Hk; simpl; rewrite Hk; [done|exact IH].
Qed.


Lemma count_of_elem c k n :
  count_of c k = S n ->
  exists key, (key, S n) ∈ c /\ key_eqb key k = true.
Proof.
  induction c as [|[k' m] c IH]; simpl; [done|].
  destruct (key_eqb k' k) eqn:Hk.
  - intros ->. exists k'. split; [left|done].
  - intros Hc. destruct (IH Hc) as (key & Hin & Hkey).
    exists key. split; [by right|done].
Qed.

Lemma set_add_elem s x s' :
  set_add s x = Ok s' ->
  (forall v, v ∈ s -> v ∈ s') /\ (forall v, v ∈ s' -> v ∈ s \/ v = x).
Proof.
  unfold set_add. destruct (hashable x); [|done].
  destruct (existsb _ s) eqn:Hin; intros [= <-].
  - split; [done|by left].
  - split; intros v Hv.
    + apply elem_of_app. by left.
    + apply elem_of_app in Hv as [Hv|Hv]; [by left|].
      right. by apply list_elem_of_singleton in Hv.
Qed.

Lemma set_add_str s path s' :
  set_add s (JStr path) = Ok s' -> JStr path ∈ s'.
Proof.
  unfold set_add. simpl. destruct (existsb _ s) eqn:Hin; intros [= <-].
  - apply existsb_exists in Hin as (y & Hy & Hkey).
    apply key_eqb_str in Hkey as ->. by apply list_elem_of_In.
  - apply elem_of_app. right. by apply list_elem_of_singleton.
Qed.

(** ** The shape of the report *)

Lemma bind_ok {A B : Type} (a : A) (f : A -> result B) : (Ok a ≫= f) = f a.
Proof. reflexivity. Qed.

Lemma bind_inv {A B : Type} (m : result A) (f : A -> result B) b :
  (m ≫= f) = Ok b -> exists a, m = Ok a /\ f a = Ok b.
Proof. destruct m as [a|e]; [by exists a|done]. Qed.

Lemma foldl_append {A : Type} (f : A -> str) acc l :
  foldl (fun md x => md ++ f x) acc l = acc ++ concat (f <$> l).
Proof.
  revert acc. induction l as [|x l IH]; intros acc; simpl.
  - by rewrite app_nil_r.
  - by rewrite IH, <- app_assoc.
Qed.

Lemma timeline_append acc evs md :
  for_each (fun md event => line ← render_event event; Ok (md ++ line))
    acc evs
  = Ok md ->
  exists rendered,
    Forall2 (fun event line => render_event event = Ok line) evs rendered
    /\ md = acc ++ concat rendered.
Proof.
  revert acc. induction evs as [|event evs IH]; intros acc; simpl.
  - intros [= <-]. exists []. split; [constructor|by rewrite app_nil_r].
  - intros Hloop. apply bind_inv in Hloop as (md1 & Hline & Hrest).
    apply bind_inv in Hline as (line & Hline & [= <-]).
    destruct (IH _ Hrest) as (rendered & Hall & ->).
    exists (line :: rendered). split; [by constructor|].
    simpl. by rewrite <- app_assoc.
Qed.

Lemma generate_markdown_shape first rest tool_uses files_modified md :
  generate_markdown (first :: rest) tool_uses files_modified = Ok md ->
  exists rendered tail,
    Forall2 (fun event line => render_event event = Ok line)
      (first :: rest) rendered
    /\ md = header (ev_time first)
              (ev_time (default first (last (first :: rest))))
            ++ concat rendered
            ++ statistics (first :: rest) tool_uses files_modified
            ++ tail
    /\ (files_modified = [] /\ tail = []
        \/ files_modified ≠ [] /\ exists sorted,
             py_sorted files_modified = Ok sorted
             /\ tail = nl ++ py "## Files Modified" ++ nl ++ nl
                       ++ concat (file_line <$> sorted)).
Proof.
  unfold generate_markdown. intros Hgen.
  apply bind_inv in Hgen as (md1 & Hloop & Hgen).
  apply timeline_append in Hloop as (rendered & Hall & ->).
  rewrite foldl_append in Hgen.
  exists rendered. case_bool_decide as Hfiles.
  - exists []. injection Hgen as <-. split; [done|]. split; [|by left].
    unfold statistics, totals, tool_usage.
    by rewrite !app_nil_r, <- !app_assoc.
  - apply bind_inv in Hgen as (sorted & Hsorted & [= <-]).
    rewrite foldl_append.
    exists (nl ++ py "## Files Modified" ++ nl ++ nl
            ++ concat (file_line <$> sorted)).
    split; [done|]. split; [|right; eauto].
    unfold statistics, totals, tool_usage. by rewrite <- !app_assoc.
Qed.

(** ** Tool-use blocks *)

Lemma eq_str_refl name : eq_str (JStr name) name = true.
Proof. by apply eq_str_true. Qed.

Lemma mutating_cases name :
  in_strs name mutating_tools = true ->
  name = JStr (py "Edit") \/ name = JStr (py "Write")
  \/ name = JStr (py "MultiEdit").
Proof.
  unfold in_strs, mutating_tools. simpl. rewrite orb_false_r.
  intros Hin. apply orb_true_iff in Hin as [Hin|Hin];
    [|apply orb_true_iff in Hin as [Hin|Hin]];
    apply eq_str_true in Hin; auto.
Qed.

Lemma mutating_not_bash name :
  in_strs name mutating_tools = true ->
  hashable name = true /\ eq_str name (py "Bash") = false.
Proof.
  intros Hin. destruct (mutating_cases name Hin) as [->|[->| ->]];
    by vm_compute.
Qed.

(** A [tool_use] block, once its type and name are read. *)
Lemma process_block_tool_use timestamp st item tool_name :
  py_get item (py "type") JNull = Ok (JStr (py "tool_use")) ->
  py_get item (py "name") (JStr []) = Ok tool_name ->
  process_block timestamp st item
  = (uses ← dict_incr (tool_uses st) tool_name;
     files ←
       (if in_strs tool_name mutating_tools then
          input ← py_get item (py "input") (JDict []);
          file_path ← py_get input (py "file_path") (JStr []);
          if truthy file_path then set_add (files_modified st) file_path
          else Ok (files_modified st)
        else Ok (files_modified st));
     time ← parse_timestamp timestamp;
     details ← py_get item (py "input") (JDict []);
     Ok {| events := events st ++ [EvTool time tool_name details];
           tool_uses := uses;
           files_modified := files |}).
Proof.
  intros Htype Hname. unfold process_block.
  by rewrite Htype, bind_ok, eq_str_refl, Hname, bind_ok.
Qed.



Lemma sorted_by_count_perm items : sorted_by_count items ≡ₚ items.
Proof.
  assert (Hins : forall x l, insert_by_count x l ≡ₚ x :: l).
  { intros x l. induction l as [|y l IH]; simpl; [done|].
    destruct (x.2 <? y.2)%nat; [|done].
    rewrite IH. apply Permutation_swap. }
  induction items as [|x items IH]; simpl; [done|].
  by rewrite Hins, IH.
Qed.

(** ** Truncation *)





(** ** Where the timestamp is parsed *)

Ltac bind_inv H :=
  let a := fresh "a" in
  let Ha := fresh "Ha" in
  apply bind_inv in H as (a & Ha & H).

Lemma py_get_dict event k dflt v k' dflt' :
  py_get event k dflt = Ok v -> exists v', py_get event k' dflt' = Ok v'.
Proof. destruct event; try done. simpl. eauto. Qed.

Lemma process_block_untimed timestamp e st item st' :
  parse_timestamp timestamp = Raise e ->
  process_block timestamp st item = Ok st' ->
  st' = st.
Proof.
  intros Htime Hblock. unfold process_block in Hblock.
  bind_inv Hblock. destruct (eq_str a (py "tool_use")).
  - do 3 bind_inv Hblock. rewrite Htime in Hblock. done.
  - destruct (eq_str a (py "text")); [|by injection Hblock].
    do 2 bind_inv Hblock. case_bool_decide; [by injection Hblock|].
    rewrite Htime in Hblock. done.
Qed.

Lemma process_blocks_untimed timestamp e st blocks st' :
  parse_timestamp timestamp = Raise e ->
  for_each (process_block timestamp) st blocks = Ok st' ->
  st' = st.
Proof.
  intros Htime. revert st. induction blocks as [|item blocks IH];
    intros st Hloop; simpl in Hloop; [by injection Hloop|].
  bind_inv Hloop.
  apply (process_block_untimed _ _ _ _ _ Htime) in Ha as ->. by apply IH.
Qed.

(** C9: an entry whose type is neither "user" nor "assistant", and a user
    entry whose extracted text is empty or begins with "is running…", is
    processed without error and without effect whatever its timestamp is
    (none of this depends on the timestamp field or on the date parser);
    and when the timestamp of an entry does not parse, the entry either
    raises or leaves the accumulators untouched, so an entry that does
    complete has emitted no record. *)
Theorem timestamp_parsed_only_to_emit (st : parse_state) (event : json) :
  (forall ty,
      py_get event (py "type") (JStr []) = Ok ty ->
      eq_str ty (py "user") = false ->
      eq_str ty (py "assistant") = false ->
      process_event st event = Ok st)
  /\ (forall message content text,
        py_get event (py "type") (JStr []) = Ok (JStr (py "user")) ->
        py_get event (py "message") (JDict []) = Ok message ->
        py_get message (py "content") (JStr []) = Ok content ->
        extract_message_text content = Ok text ->
        text = [] \/ startswith text (py "is running" ++ [8230%N]) = true ->
        process_event st event = Ok st)
  /\ (forall timestamp e st',
        py_get event (py "timestamp") (JStr []) = Ok timestamp ->
        parse_timestamp timestamp = Raise e ->
        process_event st event = Ok st' ->
        st' = st).
Proof.
  split; [|split].
  - intros ty Hty Huser Hassistant.
    destruct (py_get_dict _ _ _ _ (py "timestamp") (JStr []) Hty)
      as [timestamp Hts].
    unfold process_event.
    by rewrite Hts, bind_ok, Hty, bind_ok, Huser, Hassistant.
  - intros message content text Hty Hmsg Hcontent Htext Hquiet.
    destruct (py_get_dict _ _ _ _ (py "timestamp") (JStr []) Hty)
      as [timestamp Hts].
    unfold process_event.
    rewrite Hts, bind_ok, Hty, bind_ok, eq_str_refl, Hmsg, bind_ok.
    rewrite Hcontent, bind_ok, Htext, bind_ok.
    destruct Hquiet as [-> | Hrunning]; [done|].
    fold is_running in Hrunning. rewrite Hrunning.
    by rewrite andb_false_r.
  - intros timestamp e st' Hts Htime Hevent.
    unfold process_event in Hevent. rewrite Hts, bind_ok in Hevent.
    bind_inv Hevent. destruct (eq_str a (py "user")).
    + do 3 bind_inv Hevent.
      destruct (_ && _); [|by injection Hevent].
      rewrite Htime in Hevent. done.
    + destruct (eq_str a (py "assistant")); [|by injection Hevent].
      do 2 bind_inv Hevent.
      by eapply process_blocks_untimed.
Qed.

(** ** Order of the records *)

Ltac bind_as H a Ha := apply bind_inv in H as (a & Ha & H).

Lemma process_block_appends timestamp st item st' :
  process_block timestamp st item = Ok st' ->
  exists new, appends (process_block timestamp) item new.
Proof.
  intros Hblock. unfold process_block in Hblock.
  bind_as Hblock ty Hty.
  destruct (eq_str ty (py "tool_use")) eqn:Htool.
  - bind_as Hblock name Hname. bind_as Hblock uses Huses.
    bind_as Hblock files Hfiles. bind_as Hblock time Htime.
    bind_as Hblock details Hdetails.
    exists [EvTool time name details]. intros st2. unfold process_block.
    rewrite Hty, bind_ok, Htool, Hname, bind_ok.
    unfold dict_incr in *. destruct (hashable name); [|done].
    rewrite bind_ok.
    assert (Hfiles2 : exists files2,
               (if in_strs name mutating_tools then
                  input ← py_get item (py "input") (JDict []);
                  file_path ← py_get input (py "file_path") (JStr []);
                  if truthy file_path
                  then set_add (files_modified st2) file_path
                  else Ok (files_modified st2)
                else Ok (files_modified st2)) = Ok files2).
    { destruct (in_strs name mutating_tools); [|eauto].
      bind_as Hfiles input Hinput. bind_as Hfiles file_path Hpath.
      rewrite Hinput, bind_ok, Hpath, bind_ok.
      destruct (truthy file_path); [|eauto].
      unfold set_add in *. destruct (hashable file_path); [eauto|done]. }
    destruct Hfiles2 as [files2 ->].
    rewrite bind_ok, Htime, bind_ok, Hdetails, bind_ok. eauto.
  - destruct (eq_str ty (py "text")) eqn:Htext.
    + bind_as Hblock t Ht. bind_as Hblock text Hstrip.
      case_bool_decide as Hempty.
      * exists []. intros st2. unfold process_block.
        rewrite Hty, bind_ok, Htool, Htext, Ht, bind_ok, Hstrip, bind_ok.
        rewrite bool_decide_eq_true_2 by done.
        exists st2. by rewrite app_nil_r.
      * bind_as Hblock time Htime.
        exists [EvAssistant time text]. intros st2. unfold process_block.
        rewrite Hty, bind_ok, Htool, Htext, Ht, bind_ok, Hstrip, bind_ok.
        rewrite bool_decide_eq_false_2 by done.
        rewrite Htime, bind_ok. eauto.
    + exists []. intros st2. unfold process_block.
      rewrite Hty, bind_ok, Htool, Htext.
      exists st2. by rewrite app_nil_r.
Qed.

Lemma for_each_appends {A : Type}
    (step : parse_state -> A -> result parse_state) st l st' :
  (forall st x st', step st x = Ok st' -> exists new, appends step x new) ->
  for_each step st l = Ok st' ->
  exists news,
    Forall2 (appends step) l news
    /\ forall st2, exists st2',
        for_each step st2 l = Ok st2'
        /\ events st2' = events st2 ++ concat news.
Proof.
  intros Hstep. revert st. induction l as [|x l IH]; intros st Hloop.
  - exists []. split; [constructor|]. intros st2. exists st2.
    by rewrite app_nil_r.
  - simpl in Hloop. bind_as Hloop st1 Hx.
    destruct (Hstep _ _ _ Hx) as [new Hnew].
    destruct (IH _ Hloop) as (news & Hall & Hnews).
    exists (new :: news). split; [by constructor|]. intros st2.
    destruct (Hnew st2) as (st3 & Hx2 & Hev3).
    destruct (Hnews st3) as (st4 & Hl2 & Hev4).
    exists st4. simpl. rewrite Hx2, bind_ok. split; [done|].
    by rewrite Hev4, Hev3, <- app_assoc.
Qed.

Lemma process_line_appends st line st' :
  process_line st line = Ok st' ->
  exists new, appends process_line line new.
Proof.
  unfold process_line at 1.
  destruct (json_loads line) as [event| |e] eqn:Hline; [|intros _|done].
  2:{ exists []. intros st2. exists st2.
      by rewrite process_line_skip, app_nil_r. }
  intros Hevent.
  enough (exists new, forall st2, exists st2',
             process_event st2 event = Ok st2'
             /\ events st2' = events st2 ++ new) as [new Hnew].
  { exists new. intros st2. by rewrite (process_line_decoded _ _ _ Hline). }
  unfold process_event in Hevent.
  bind_as Hevent timestamp Hts. bind_as Hevent ty Hty.
  destruct (eq_str ty (py "user")) eqn:Huser.
  - bind_as Hevent message Hmsg. bind_as Hevent content Hcontent.
    bind_as Hevent text Htext.
    destruct (_ && _) eqn:Hkeep.
    + bind_as Hevent time Htime.
      exists [EvUser time (truncate 100 text)]. intros st2.
      unfold process_event.
      rewrite Hts, bind_ok, Hty, bind_ok, Huser, Hmsg, bind_ok.
      rewrite Hcontent, bind_ok, Htext, bind_ok, Hkeep, Htime, bind_ok.
      eauto.
    + exists []. intros st2. unfold process_event.
      rewrite Hts, bind_ok, Hty, bind_ok, Huser, Hmsg, bind_ok.
      rewrite Hcontent, bind_ok, Htext, bind_ok, Hkeep.
      exists st2. by rewrite app_nil_r.
  - destruct (eq_str ty (py "assistant")) eqn:Hassistant.
    + bind_as Hevent message Hmsg. bind_as Hevent content Hcontent.
      apply for_each_appends in Hevent as (news & _ & Hnews);
        [|apply process_block_appends].
      exists (concat news). intros st2. unfold process_event.
      rewrite Hts, bind_ok, Hty, bind_ok, Huser, Hassistant, Hmsg, bind_ok.
      rewrite Hcontent, bind_ok. apply Hnews.
    + exists []. intros st2. unfold process_event.
      rewrite Hts, bind_ok, Hty, bind_ok, Huser, Hassistant.
      exists st2. by rewrite app_nil_r.
Qed.

Lemma appends_line_events line new :
  appends process_line line new -> line_events line = new.
Proof.
  intros Hnew. destruct (Hnew initial) as (st0 & Hline & Hev).
  unfold line_events. by rewrite Hline, Hev.
Qed.

Lemma appends_block_events timestamp item new :
  appends (process_block timestamp) item new ->
  block_events timestamp item = new.
Proof.
  intros Hnew. destruct (Hnew initial) as (st0 & Hblock & Hev).
  unfold block_events. by rewrite Hblock, Hev.
Qed.

Lemma Forall2_fmap_eq {A B : Type} (f : A -> B) (P : A -> B -> Prop) l news :
  (forall x new, P x new -> f x = new) ->
  Forall2 P l news -> f <$> l = news.
Proof.
  intros Hf. induction 1 as [|x new l news Hx _ IH]; [done|].
  rewrite fmap_cons. f_equal; [by apply Hf|exact IH].
Qed.

(** ** The set of modified files *)

Lemma str_leb_total a b : str_leb a b = true \/ str_leb b a = true.
Proof.
  revert b. induction a as [|c a IH]; intros [|d b]; simpl; auto.
  destruct (N.ltb_spec c d), (N.ltb_spec d c), (N.eqb_spec c d),
    (N.eqb_spec d c); simpl; auto; try lia.
Qed.

Lemma str_leb_trans a b c :
  str_leb a b = true -> str_leb b c = true -> str_leb a c = true.
Proof.
  revert b c. induction a as [|x a IH]; intros [|y b] [|z c]; simpl; auto;
    try done.
  destruct (N.ltb_spec x y), (N.ltb_spec y z), (N.ltb_spec x z),
    (N.eqb_spec x y), (N.eqb_spec y z), (N.eqb_spec x z);
    simpl; try done; try lia.
  apply IH.
Qed.

#[local] Instance str_le_total : Total str_le.
Proof. intros a b. apply str_leb_total. Qed.

#[local] Instance str_le_trans : Transitive str_le.
Proof. intros a b c. apply str_leb_trans. Qed.

Lemma all_strs_fmap paths : all_strs (JStr <$> paths) = Some paths.
Proof.
  unfold all_strs. induction paths as [|path paths IH]; [done|].
  rewrite fmap_cons. simpl. simpl in IH. by rewrite IH.
Qed.

Lemma all_JStr (s : list json) :
  (forall x, x ∈ s -> exists path, x = JStr path) ->
  exists paths, s = JStr <$> paths.
Proof.
  induction s as [|x s IH]; intros Hall; [by exists []|].
  destruct (Hall x) as [path ->]; [left|].
  destruct IH as [paths ->]; [intros y Hy; apply Hall; by right|].
  by exists (path :: paths).
Qed.

Lemma for_each_invariant {A S : Type} (P : S -> Prop)
    (step : S -> A -> result S) st l st' :
  (forall st x st', step st x = Ok st' -> P st -> P st') ->
  for_each step st l = Ok st' -> P st -> P st'.
Proof.
  intros Hstep. revert st. induction l as [|x l IH]; intros st Hloop Hst.
  - by injection Hloop as <-.
  - simpl in Hloop. bind_as Hloop st1 Hx. eauto.
Qed.

Lemma set_add_distinct s x s' :
  set_add s x = Ok s' ->
  (forall paths, s = JStr <$> paths -> NoDup paths) ->
  forall paths, s' = JStr <$> paths -> NoDup paths.
Proof.
  unfold set_add. destruct (hashable x); [|done].
  destruct (existsb _ s) eqn:Hin; intros [= <-] Hs paths Hpaths; [eauto|].
  destruct (decide (paths = [])) as [->|Hne]; [constructor|].
  destruct (exists_last Hne) as (front & path & ->).
  rewrite fmap_app in Hpaths. simpl in Hpaths.
  apply app_inj_tail in Hpaths as [-> ->].
  apply NoDup_app. split; [by apply Hs|]. split; [|apply NoDup_singleton].
  intros other Hother Hsame. apply list_elem_of_singleton in Hsame as ->.
  apply not_true_iff_false in Hin. apply Hin, existsb_exists.
  exists (JStr path). split.
  - apply list_elem_of_In. by apply list_elem_of_fmap_2.
  - by apply key_eqb_str.
Qed.

Lemma process_block_recorded timestamp st item st' :
  process_block timestamp st item = Ok st' -> recorded st -> recorded st'.
Proof.
  intros Hblock [Hfrom Hdistinct]. unfold process_block in Hblock.
  bind_as Hblock ty Hty. destruct (eq_str ty (py "tool_use")).
  - bind_as Hblock name Hname. bind_as Hblock uses Huses.
    bind_as Hblock files Hfiles. bind_as Hblock time Htime.
    bind_as Hblock details Hdetails. injection Hblock as <-.
    assert (Hold : forall x, x ∈ files_modified st ->
               exists time' tool details',
                 EvTool time' tool details'
                 ∈ events st ++ [EvTool time name details]
                 /\ in_strs tool mutating_tools = true
                 /\ py_get details' (py "file_path") (JStr []) = Ok x).
    { intros x Hx. destruct (Hfrom x Hx) as (t & tool & d & Hev & Hrest).
      exists t, tool, d. split; [|done]. apply elem_of_app. by left. }
    destruct (in_strs name mutating_tools) eqn:Hmutating;
      [|by injection Hfiles as <-].
    bind_as Hfiles input Hinput. bind_as Hfiles file_path Hpath.
    rewrite Hinput in Hdetails. injection Hdetails as <-.
    destruct (truthy file_path); [|by injection Hfiles as <-].
    split; cbn [events files_modified].
    + intros x Hx. apply (set_add_elem _ _ _ Hfiles) in Hx as [Hx| ->];
        [by apply Hold|].
      exists time, name, input. split; [|done].
      apply elem_of_app. right. by apply list_elem_of_singleton.
    + by eapply set_add_distinct.
  - destruct (eq_str ty (py "text")); [|by injection Hblock as <-].
    bind_as Hblock t Ht. bind_as Hblock text Hstrip.
    case_bool_decide; [by injection Hblock as <-|].
    bind_as Hblock time Htime. injection Hblock as <-.
    split; cbn [events files_modified]; [|done].
    intros x Hx. destruct (Hfrom x Hx) as (t' & tool & d & Hev & Hrest).
    exists t', tool, d. split; [|done]. apply elem_of_app. by left.
Qed.

Lemma process_line_recorded st line st' :
  process_line st line = Ok st' -> recorded st -> recorded st'.
Proof.
  unfold process_line. destruct (json_loads line) as [event| |e];
    [|by intros [= <-]|done].
  intros Hevent [Hfrom Hdistinct]. unfold process_event in Hevent.
  bind_as Hevent timestamp Hts. bind_as Hevent ty Hty.
  destruct (eq_str ty (py "user")).
  - bind_as Hevent message Hmsg. bind_as Hevent content Hcontent.
    bind_as Hevent text Htext.
    destruct (_ && _); [|by injection Hevent as <-].
    bind_as Hevent time Htime. injection Hevent as <-.
    split; cbn [events files_modified]; [|done].
    intros x Hx. destruct (Hfrom x Hx) as (t' & tool & d & Hev & Hrest).
    exists t', tool, d. split; [|done]. apply elem_of_app. by left.
  - destruct (eq_str ty (py "assistant")); [|by injection Hevent as <-].
    bind_as Hevent message Hmsg. bind_as Hevent content Hcontent.
    eapply for_each_invariant; [|exact Hevent|done].
    apply process_block_recorded.
Qed.

Lemma parse_lines_recorded lines st :
  parse_lines lines = Ok st -> recorded st.
Proof.
  intros Hparse. eapply for_each_invariant;
    [apply process_line_recorded|exact Hparse|].
  split; [by intros x Hx; apply elem_of_nil in Hx|].
  intros [|path paths]; [constructor|done].
Qed.

(** A rendered event of a file-mutating tool has a [str] for file_path. *)
Lemma rendered_path time tool details line x :
  render_event (EvTool time tool details) = Ok line ->
  in_strs tool mutating_tools = true ->
  py_get details (py "file_path") (JStr []) = Ok x ->
  exists path, x = JStr path.
Proof.
  intros Hrender Hmutating Hpath. unfold render_event in Hrender.
  destruct (mutating_not_bash _ Hmutating) as [_ Hbash].
  rewrite Hbash, Hmutating, Hpath, bind_ok in Hrender.
  bind_as Hrender name Hname. destruct x; try done. eauto.
Qed.

Lemma file_lines paths :
  concat (file_line <$> (JStr <$> paths))
  = concat ((fun path => py "- `" ++ path ++ py "`" ++ nl) <$> paths).
Proof. by rewrite <- list_fmap_compose. Qed.

(** C8: in the report of a parsed file, the Files Modified section is
    there exactly when the set of modified files is not empty, and it
    then lists the paths of the set, each once, in lexicographic order of
    their characters. *)
Theorem files_modified_listing (lines : list str) (st : parse_state)
    (md : str)
    (Hparse : parse_lines lines = Ok st)
    (Hreport : generate_markdown (events st) (tool_uses st)
                 (files_modified st) = Ok md) :
  exists (rendered : list str) (paths : list str),
    Forall2 (fun event line => render_event event = Ok line)
      (events st) rendered
    /\ md = match events st with
            | [] => py "No events found in session."
            | first :: _ =>
                header (ev_time first)
                  (ev_time (default first (last (events st))))
                ++ concat rendered
                ++ statistics (events st) (tool_uses st) (files_modified st)
            end
            ++ files_section paths
    /\ (files_modified st = [] <-> files_section paths = [])
    /\ files_modified st ≡ₚ JStr <$> paths
    /\ NoDup paths
    /\ StronglySorted str_le paths.
Proof.
  destruct (parse_lines_recorded _ _ Hparse) as [Hfrom Hdistinct].
  destruct (events st) as [|first rest] eqn:Hevents.
  { assert (Hnone : files_modified st = []).
    { destruct (files_modified st) as [|x files]; [done|].
      destruct (Hfrom x) as (t & tool & d & Hev & _); [left|].
      by apply elem_of_nil in Hev. }
    injection Hreport as <-. exists [], []. rewrite Hnone, app_nil_r.
    repeat split; try done; constructor. }
  apply generate_markdown_shape in Hreport
    as (rendered & tail & Hall & -> & Htail).
  assert (Hstrs : exists unsorted, files_modified st = JStr <$> unsorted).
  { apply all_JStr. intros x Hx.
    destruct (Hfrom x Hx) as (t & tool & d & Hev & Hmutating & Hpath).
    apply list_elem_of_lookup in Hev as [i Hi].
    destruct (Forall2_lookup_l _ _ _ _ _ Hall Hi) as (line & _ & Hline).
    by eapply rendered_path. }
  destruct Hstrs as [unsorted Hfiles].
  pose proof (Hdistinct _ Hfiles) as Hnodup.
  exists rendered, (merge_sort str_le unsorted).
  assert (Hperm : merge_sort str_le unsorted ≡ₚ unsorted)
    by apply merge_sort_Permutation.
  split; [done|].
  assert (Hsection : tail = files_section (merge_sort str_le unsorted)
                     /\ (files_modified st = []
                         <-> files_section (merge_sort str_le unsorted) = [])).
  { destruct Htail as [[Hnone ->]|(Hsome & sorted & Hsorted & ->)].
    - rewrite Hnone in Hfiles. destruct unsorted; [|done].
      by vm_compute.
    - unfold py_sorted in Hsorted. rewrite Hfiles, all_strs_fmap in Hsorted.
      injection Hsorted as <-. rewrite file_lines.
      destruct (merge_sort str_le unsorted) as [|path sorted] eqn:Hsort.
      + apply Permutation_nil_l in Hperm as <-. by rewrite Hfiles in Hsome.
      + split; [done|]. split; [done|].
        unfold files_section. intros Habsurd.
        apply (f_equal length) in Habsurd. by rewrite length_app in Habsurd. }
  destruct Hsection as [-> Hpresent].
  split; [by rewrite <- !app_assoc|]. split; [exact Hpresent|].
  split; [by rewrite Hfiles, Hperm|].
  split; [by rewrite Hperm|].
  apply (StronglySorted_merge_sort _).
Qed.

(** ** Assistant entries, block by block *)

(** An assistant entry is its content blocks, processed in order. *)
Lemma process_event_assistant st event timestamp message content :
  py_get event (py "timestamp") (JStr []) = Ok timestamp ->
  py_get event (py "type") (JStr []) = Ok (JStr (py "assistant")) ->
  py_get event (py "message") (JDict []) = Ok message ->
  py_get message (py "content") (JList []) = Ok content ->
  process_event st event
  = for_each (process_block timestamp) st
      (match content with JList l => l | _ => [] end).
Proof.
  intros Hts Hty Hmsg Hcontent. unfold process_event.
  rewrite Hts, bind_ok, Hty, bind_ok.
  replace (eq_str (JStr (py "assistant")) (py "user")) with false
    by (by vm_compute).
  by rewrite eq_str_refl, Hmsg, bind_ok, Hcontent, bind_ok.
Qed.

(** The entry reaches the block [item] in the state [st1] that the blocks
    before it leave, and goes on from the state the block leaves. *)
Lemma process_event_at_block st event timestamp message before item after
    st1 st' :
  py_get event (py "timestamp") (JStr []) = Ok timestamp ->
  py_get event (py "type") (JStr []) = Ok (JStr (py "assistant")) ->
  py_get event (py "message") (JDict []) = Ok message ->
  py_get message (py "content") (JList [])
  = Ok (JList (before ++ item :: after)) ->
  for_each (process_block timestamp) st before = Ok st1 ->
  process_block timestamp st1 item = Ok st' ->
  process_event st event = for_each (process_block timestamp) st' after.
Proof.
  intros Hts Hty Hmsg Hcontent Hbefore Hitem.
  rewrite (process_event_assistant _ _ _ _ _ Hts Hty Hmsg Hcontent).
  rewrite for_each_app, Hbefore, bind_ok. simpl. by rewrite Hitem, bind_ok.
Qed.

Lemma count_of_incr_le k c k2 :
  (count_of c k2 <= count_of (incr k c) k2)%nat.
Proof.
  induction c as [|[k' n] c IH]; simpl; [lia|].
  destruct (key_eqb k' k); simpl; destruct (key_eqb k' k2); lia.
Qed.

(** A block appends at most one event, and it only adds to the set and
    to the counts. *)
Lemma process_block_grows timestamp st item st' :
  process_block timestamp st item = Ok st' ->
  (events st' = events st \/ exists e, events st' = events st ++ [e])
  /\ (forall x, x ∈ files_modified st -> x ∈ files_modified st')
  /\ (forall k, (count_of (tool_uses st) k <= count_of (tool_uses st') k)%nat).
Proof.
  intros Hblock. unfold process_block in Hblock.
  bind_as Hblock ty Hty. destruct (eq_str ty (py "tool_use")).
  - bind_as Hblock name Hname. bind_as Hblock uses Huses.
    bind_as Hblock files Hfiles. bind_as Hblock time Htime.
    bind_as Hblock details Hdetails. injection Hblock as <-.
    cbn [events tool_uses files_modified].
    split; [right; eauto|]. split.
    + destruct (in_strs name mutating_tools); [|by injection Hfiles as <-].
      bind_as Hfiles input Hinput. bind_as Hfiles file_path Hpath.
      destruct (truthy file_path); [|by injection Hfiles as <-].
      by destruct (set_add_elem _ _ _ Hfiles).
    + unfold dict_incr in Huses. destruct (hashable name); [|done].
      injection Huses as <-. intros k. apply count_of_incr_le.
  - destruct (eq_str ty (py "text"));
      [|injection Hblock as <-; by split; [left|]].
    bind_as Hblock t Ht. bind_as Hblock text Hstrip.
    case_bool_decide; [injection Hblock as <-; by split; [left|]|].
    bind_as Hblock time Htime. injection Hblock as <-.
    cbn [events tool_uses files_modified]. split; [right; eauto|done].
Qed.


Lemma block_events_short timestamp item :
  (length (block_events timestamp item) <= 1)%nat.
Proof.
  unfold block_events.
  destruct (process_block timestamp initial item) as [st|e] eqn:Hblock;
    [|simpl; lia].
  destruct (process_block_grows _ _ _ _ Hblock) as ([->|[e ->]] & _);
    simpl; lia.
Qed.

Lemma process_blocks_events timestamp blocks st st' :
  for_each (process_block timestamp) st blocks = Ok st' ->
  events st' = events st ++ concat (block_events timestamp <$> blocks).
Proof.
  intros Hloop. pose proof Hloop as Hloop2.
  apply for_each_appends in Hloop2 as (news & Hall & Hnews);
    [|apply process_block_appends].
  destruct (Hnews st) as (st2 & Hst2 & Hev).
  rewrite Hloop in Hst2. injection Hst2 as <-.
  rewrite Hev. do 2 f_equal. symmetry.
  eapply Forall2_fmap_eq; [|exact Hall]. apply appends_block_events.
Qed.



(** C7: a [tool_use] block whose name is none of "Bash", "Edit", "Write",
    "MultiEdit", "Read", "Grep", in an entry whose timestamp parses, emits
    a tool event that adds nothing to the timeline, and still adds 1 to
    the count of its name; every report rendered from the resulting
    counter has, under the heading "### Tool Usage:", one line
    "- <name>: <count> times" for each item of the counter, and among
    them the line of that name with that count. *)
Theorem unrendered_tool_counted (timestamp : json) (st : parse_state)
    (item name : json) (time : str)
    (Htype : py_get item (py "type") JNull = Ok (JStr (py "tool_use")))
    (Hname : py_get item (py "name") (JStr []) = Ok name)
    (Hhashable : hashable name = true)
    (Hbash : eq_str name (py "Bash") = false)
    (Hmutating : in_strs name [py "Edit"; py "Write"; py "MultiEdit"] = false)
    (Hread : eq_str name (py "Read") = false)
    (Hgrep : eq_str name (py "Grep") = false)
    (Htime : parse_timestamp timestamp = Ok time) :
  exists st' details key,
    process_block timestamp st item = Ok st'
    /\ events st' = events st ++ [EvTool time name details]
    /\ render_event (EvTool time name details) = Ok []
    /\ count_of (tool_uses st') name = S (count_of (tool_uses st) name)
    /\ key_eqb key name = true
    /\ (forall s, name = JStr s -> key = JStr s)
    /\ (key, S (count_of (tool_uses st) name))
       ∈ sorted_by_count (tool_uses st')
    /\ (forall first rest files md,
          generate_markdown (first :: rest) (tool_uses st') files = Ok md ->
          exists rendered lines tail,
            Forall2 (fun event line => render_event event = Ok line)
              (first :: rest) rendered
            /\ md = header (ev_time first)
                      (ev_time (default first (last (first :: rest))))
                    ++ concat rendered
                    ++ totals (first :: rest) files
                    ++ nl ++ py "### Tool Usage:" ++ nl
                    ++ concat lines ++ tail
            /\ lines
               = (fun entry : json * nat =>
                    py "- "
                    ++ (match entry.1 with
                        | JStr s => s
                        | _ => py_repr entry.1
                        end)
                    ++ py ": " ++ str_of_nat entry.2 ++ py " times" ++ nl)
                 <$> sorted_by_count (tool_uses st')
            /\ (py "- "
                ++ (match key with
                    | JStr s => s
                    | _ => py_repr key
                    end)
                ++ py ": " ++ str_of_nat (S (count_of (tool_uses st) name))
                ++ py " times" ++ nl) ∈ lines)
    /\ (forall st0 event message before after,
          py_get event (py "timestamp") (JStr []) = Ok timestamp ->
          py_get event (py "type") (JStr []) = Ok (JStr (py "assistant")) ->
          py_get event (py "message") (JDict []) = Ok message ->
          py_get message (py "content") (JList [])
          = Ok (JList (before ++ item :: after)) ->
          for_each (process_block timestamp) st0 before = Ok st ->
          process_event st0 event
          = for_each (process_block timestamp) st' after).
Proof.
  fold mutating_tools in Hmutating.
  assert (Hitem : exists st', process_block timestamp st item = Ok st').
  { rewrite (process_block_tool_use _ _ _ _ Htype Hname).
    unfold dict_incr.
    rewrite Hhashable, bind_ok, Hmutating, bind_ok, Htime, bind_ok.
    destruct item; try done. simpl. eauto. }
  destruct Hitem as [st_item Hitem]. pose proof Hitem as Hsame.
  revert Hsame.
  rewrite (process_block_tool_use _ _ _ _ Htype Hname).
  unfold dict_incr. rewrite Hhashable, bind_ok, Hmutating, bind_ok, Htime.
  rewrite bind_ok.
  assert (Hdetails : exists details,
             py_get item (py "input") (JDict []) = Ok details).
  { destruct item; try done. simpl. eauto. }
  destruct Hdetails as [details Hdetails]. rewrite Hdetails, bind_ok.
  pose proof (count_of_incr name (tool_uses st) (key_eqb_refl _ Hhashable))
    as Hcount.
  destruct (count_of_elem _ _ _ Hcount) as (key & Hin & Hkey).
  assert (Hsorted : (key, S (count_of (tool_uses st) name))
                    ∈ sorted_by_count (incr name (tool_uses st))).
  { by rewrite sorted_by_count_perm. }
  intros [= <-].
  exists {| events := events st ++ [EvTool time name details];
            tool_uses := incr name (tool_uses st);
            files_modified := files_modified st |}, details, key.
  cbn [events tool_uses files_modified]. split; [done|]. split; [done|].
  split; [unfold render_event; by rewrite Hbash, Hmutating, Hread, Hgrep|].
  split; [done|]. split; [done|].
  split; [intros s ->; by apply key_eqb_str|]. split; [done|].
  split;
    [|intros st0 event message before after Hts Hty Hmsg Hcontent Hbefore;
      by eapply process_event_at_block].
  intros first rest files md Hgen.
  apply generate_markdown_shape in Hgen
    as (rendered & tail & Hall & -> & _).
  exists rendered, (usage_line <$> sorted_by_count (incr name (tool_uses st))),
    tail.
  split; [done|]. split; [|split; [reflexivity|]].
  - unfold statistics, tool_usage. by rewrite <- !app_assoc.
  - by apply (list_elem_of_fmap_2 usage_line) in Hsorted.
Qed.

(** C6: the parse appends; it never reorders. The events of a parse are
    the events of its lines, joined in line order. An assistant entry
    walks its content from the first block to the last: its events are
    those of its blocks, joined in block order, at most one for a block.
    The timeline of the report is the rendering of each event, joined in
    the order of the events. *)
Theorem records_keep_line_order :
  (forall lines st,
      parse_lines lines = Ok st ->
      events st = concat (line_events <$> lines))
  /\ (forall timestamp blocks st st',
        for_each (process_block timestamp) st blocks = Ok st' ->
        events st' = events st ++ concat (block_events timestamp <$> blocks))
  /\ (forall st event timestamp message blocks st',
        py_get event (py "timestamp") (JStr []) = Ok timestamp ->
        py_get event (py "type") (JStr []) = Ok (JStr (py "assistant")) ->
        py_get event (py "message") (JDict []) = Ok message ->
        py_get message (py "content") (JList []) = Ok (JList blocks) ->
        process_event st event = Ok st' ->
        events st' = events st ++ concat (block_events timestamp <$> blocks)
        /\ Forall (fun item =>
                     (length (block_events timestamp item) <= 1)%nat) blocks
        /\ forall before item after,
            blocks = before ++ item :: after ->
            exists st1 st2,
              for_each (process_block timestamp) st before = Ok st1
              /\ process_block timestamp st1 item = Ok st2
              /\ for_each (process_block timestamp) st2 after = Ok st'
              /\ events st2 = events st1 ++ block_events timestamp item)
  /\ (forall line event timestamp message blocks st st',
        json_loads line = Loaded event ->
        py_get event (py "timestamp") (JStr []) = Ok timestamp ->
        py_get event (py "type") (JStr []) = Ok (JStr (py "assistant")) ->
        py_get event (py "message") (JDict []) = Ok message ->
        py_get message (py "content") (JList []) = Ok (JList blocks) ->
        process_line st line = Ok st' ->
        line_events line = concat (block_events timestamp <$> blocks))
  /\ (forall first rest tool_uses files_modified md,
        generate_markdown (first :: rest) tool_uses files_modified = Ok md ->
        exists rendered after,
          Forall2 (fun event line => render_event event = Ok line)
            (first :: rest) rendered
          /\ md = header (ev_time first)
                    (ev_time (default first (last (first :: rest))))
                  ++ concat rendered
                  ++ statistics (first :: rest) tool_uses files_modified
                  ++ after).
Proof.
  split; [|split; [|split; [|split]]].
  - intros lines st Hparse. unfold parse_lines in Hparse.
    pose proof Hparse as Hloop.
    apply for_each_appends in Hloop as (news & Hall & Hnews);
      [|apply process_line_appends].
    destruct (Hnews initial) as (st2 & Hparse2 & Hev).
    rewrite Hparse in Hparse2. injection Hparse2 as <-.
    rewrite Hev. simpl. f_equal. symmetry.
    eapply Forall2_fmap_eq; [|exact Hall]. apply appends_line_events.
  - intros timestamp blocks st st'. apply process_blocks_events.
  - intros st event timestamp message blocks st' Hts Hty Hmsg Hcontent Hevent.
    rewrite (process_event_assistant _ _ _ _ _ Hts Hty Hmsg Hcontent) in Hevent.
    split; [by apply process_blocks_events|]. split.
    + apply Forall_forall. intros item _. apply block_events_short.
    + intros before item after ->. rewrite for_each_app in Hevent.
      bind_as Hevent st1 Hbefore. simpl in Hevent. bind_as Hevent st2 Hitem.
      exists st1, st2. split; [done|]. split; [done|]. split; [done|].
      pose proof (process_blocks_events timestamp [item] st1 st2) as Hone.
      simpl in Hone. rewrite Hitem, app_nil_r in Hone. by apply Hone.
  - intros line event timestamp message blocks st st'
      Hline Hts Hty Hmsg Hcontent Hdone.
    destruct (process_line_appends _ _ _ Hdone) as [new Hnew].
    rewrite (appends_line_events _ _ Hnew).
    destruct (Hnew st) as (st2 & Hst2 & Hev).
    rewrite Hdone in Hst2. injection Hst2 as <-.
    rewrite (process_line_decoded _ _ _ Hline) in Hdone.
    rewrite (process_event_assistant _ _ _ _ _ Hts Hty Hmsg Hcontent) in Hdone.
    apply process_blocks_events in Hdone. rewrite Hdone in Hev.
    by apply app_inv_head in Hev.
  - intros first rest tool_uses files_modified md Hgen.
    apply generate_markdown_shape in Hgen
      as (rendered & tail & Hall & -> & _).
    by exists rendered, tail.
Qed.

End Properties.

(** * Further properties of the parsing pass and of the renderer *)

Section Further.
Context `{Python}.

#[local] Opaque py.

Ltac bind_as H a Ha := apply bind_inv in H as (a & Ha & H).

(** ** [str.strip], [str.replace] and [str.split] *)

Lemma lstrip_head s c : head (lstrip s) = Some c -> isspace c = false.
Proof.
  induction s as [|a s IH]; simpl; [done|].
  destruct (isspace a) eqn:Ha; [exact IH|].
  simpl. by intros [= <-].
Qed.

Lemma lstrip_last s c : last (lstrip s) = Some c -> last s = Some c.
Proof.
  induction s as [|a s IH]; simpl lstrip; [done|].
  destruct (isspace a); [|done].
  intros Hc. specialize (IH Hc). destruct s; [done|].
  by rewrite last_cons_cons.
Qed.

Lemma strip_trimmed s : trimmed (strip s).
Proof.
  unfold strip. split; intros c.
  - rewrite head_reverse. intros Hc.
    apply lstrip_last in Hc. rewrite last_reverse in Hc.
    by apply lstrip_head in Hc.
  - rewrite last_reverse. apply lstrip_head.
Qed.

Lemma lstrip_unspaced s :
  (forall c, head s = Some c -> isspace c = false) -> lstrip s = s.
Proof.
  destruct s as [|a s]; [done|]. intros Hhead. simpl.
  by rewrite (Hhead a).
Qed.

Lemma strip_of_trimmed s : trimmed s -> strip s = s.
Proof.
  intros [Hhead Hlast]. unfold strip.
  rewrite (lstrip_unspaced s Hhead), lstrip_unspaced.
  - apply reverse_involutive.
  - intros c. rewrite head_reverse. apply Hlast.
Qed.

Lemma replace_from_absent first rest new s :
  first ∉ s -> replace_from (first :: rest) new O s = s.
Proof.
  induction s as [|c s IH]; [done|]. intros Hnotin.
  apply not_elem_of_cons in Hnotin as [Hne Hnotin]. simpl.
  destruct (N.eqb_spec first c) as [->|_]; [done|].
  simpl. by rewrite IH.
Qed.

Lemma startswith_nil s : startswith s [] = true.
Proof. by destruct s. Qed.

Lemma replace_char_app a b c new :
  replace (a ++ b) [c] new = replace a [c] new ++ replace b [c] new.
Proof.
  unfold replace. induction a as [|x a IH]; [done|]. simpl.
  rewrite !startswith_nil, IH.
  destruct (c =? x)%N; simpl; [by rewrite app_assoc|done].
Qed.

Lemma split_from_last_plain sep cur s :
  sep ∉ s -> last (split_from sep cur s) = Some (reverse cur ++ s).
Proof.
  revert cur. induction s as [|c s IH]; intros cur Hnotin; simpl.
  - by rewrite app_nil_r.
  - apply not_elem_of_cons in Hnotin as [Hne Hnotin].
    destruct (N.eqb_spec c sep) as [->|_]; [done|].
    rewrite IH by done. by rewrite reverse_cons, <- app_assoc.
Qed.

Lemma split_from_nonempty sep cur s : split_from sep cur s ≠ [].
Proof.
  revert cur. induction s as [|c s IH]; intros cur; simpl; [done|].
  destruct (c =? sep)%N; [done|apply IH].
Qed.

Lemma split_from_last_after sep cur dir name :
  last (split_from sep cur (dir ++ sep :: name))
  = last (split_from sep [] name).
Proof.
  revert cur. induction dir as [|c dir IH]; intros cur; simpl.
  - rewrite N.eqb_refl.
    destruct (split_from sep [] name) eqn:Hsplit;
      [by apply split_from_nonempty in Hsplit|done].
  - destruct (c =? sep)%N; [|apply IH].
    destruct (split_from sep [] (dir ++ sep :: name)) eqn:Hsplit;
      [by apply split_from_nonempty in Hsplit|].
    rewrite last_cons_cons, <- Hsplit. apply IH.
Qed.

(** [path.split('/')[-1]] is what follows the last '/'. *)
Lemma basename_plain name :
  47%N ∉ name -> basename (JStr name) = Ok name.
Proof.
  intros Hplain. unfold basename, split.
  by rewrite split_from_last_plain.
Qed.

Lemma basename_after dir name :
  47%N ∉ name -> basename (JStr (dir ++ 47%N :: name)) = Ok name.
Proof.
  intros Hplain. unfold basename, split.
  by rewrite split_from_last_after, split_from_last_plain.
Qed.

(** ** [extract_message_text] *)

Lemma py_get_raise v k dflt e : py_get v k dflt = Raise e -> e = AttributeError.
Proof. destruct v; simpl; by intros [=]. Qed.

Lemma py_strip_ok v text :
  py_strip v = Ok text -> exists s, v = JStr s /\ text = strip s.
Proof. destruct v; simpl; try done. intros [= <-]. eauto. Qed.

Lemma py_strip_raise v e :
  py_strip v = Raise e -> e = AttributeError /\ forall s, v ≠ JStr s.
Proof. destruct v; simpl; try done; by intros [= <-]. Qed.

Lemma trimmed_nil : trimmed [].
Proof. by split. Qed.

Lemma first_text_trimmed blocks text :
  first_text blocks = Ok text -> trimmed text.
Proof.
  induction blocks as [|item blocks IH]; simpl.
  - intros [= <-]. exact trimmed_nil.
  - destruct item; try exact IH. intros Hfirst.
    bind_as Hfirst ty Hty. destruct (eq_str ty (py "text")); [|by apply IH].
    bind_as Hfirst t Ht. apply py_strip_ok in Hfirst as (s & _ & ->).
    apply strip_trimmed.
Qed.

Lemma extract_trimmed content text :
  extract_message_text content = Ok text -> trimmed text.
Proof.
  intros Hextract. destruct content; simpl in Hextract;
    try (injection Hextract as <-; exact trimmed_nil).
  - injection Hextract as <-. apply strip_trimmed.
  - by eapply first_text_trimmed.
Qed.

(** X1: whatever [extract_message_text] returns has no whitespace at
    either end, so that stripping it again changes nothing: the text of
    a string content and of a text block is stripped, and every other
    case returns the empty text. *)
Theorem extracted_text_is_trimmed (content : json) (text : str)
    (Hextract : extract_message_text content = Ok text) :
  trimmed text /\ strip text = text.
Proof.
  pose proof (extract_trimmed _ _ Hextract) as Htrimmed.
  split; [done|by apply strip_of_trimmed].
Qed.

Lemma first_text_raise blocks e :
  first_text blocks = Raise e ->
  e = AttributeError
  /\ exists block v,
      block ∈ blocks
      /\ py_get block (py "type") JNull = Ok (JStr (py "text"))
      /\ py_get block (py "text") (JStr []) = Ok v
      /\ forall s, v ≠ JStr s.
Proof.
  induction blocks as [|item blocks IH]; simpl; [done|].
  assert (Hrest : first_text blocks = Raise e ->
            e = AttributeError
            /\ exists block v,
                block ∈ item :: blocks
                /\ py_get block (py "type") JNull = Ok (JStr (py "text"))
                /\ py_get block (py "text") (JStr []) = Ok v
                /\ forall s, v ≠ JStr s).
  { intros Hraise. destruct (IH Hraise) as (He & block & v & Hin & Hrest).
    split; [done|]. exists block, v. split; [by right|done]. }
  destruct item as [|b|z|f|t|l|d]; try exact Hrest.
  change (py_get (JDict d) (py "type") JNull)
    with (Ok (default JNull (lookup_item d (py "type")))).
  rewrite bind_ok.
  destruct (eq_str (default JNull (lookup_item d (py "type"))) (py "text"))
    eqn:Hty; [|exact Hrest].
  apply eq_str_true in Hty.
  change (py_get (JDict d) (py "text") (JStr []))
    with (Ok (default (JStr []) (lookup_item d (py "text")))).
  rewrite bind_ok. intros Hraise.
  apply py_strip_raise in Hraise as [-> Hnot].
  split; [done|].
  exists (JDict d), (default (JStr []) (lookup_item d (py "text"))).
  split; [left|]. split; [simpl; by rewrite Hty|done].
Qed.

(** X2: [extract_message_text] fails in one way only: the content is a
    list that holds a block of type "text" whose text is not a string;
    the exception is then [AttributeError]. A string content, and a
    content that is neither a string nor a list, never fail. *)
Theorem extract_message_text_failure (content : json) (e : exn)
    (Hraise : extract_message_text content = Raise e) :
  e = AttributeError
  /\ exists blocks block v,
      content = JList blocks
      /\ block ∈ blocks
      /\ py_get block (py "type") JNull = Ok (JStr (py "text"))
      /\ py_get block (py "text") (JStr []) = Ok v
      /\ forall s, v ≠ JStr s.
Proof.
  destruct content as [|b|z|f|t|blocks|d]; simpl in Hraise; try done.
  apply first_text_raise in Hraise as (-> & block & v & Hin & Hrest).
  split; [done|]. by exists blocks, block, v.
Qed.

Lemma command_tags_open :
  Forall (fun tag => exists rest, tag = 60%N :: rest) command_tags.
Proof. repeat constructor; eexists; vm_compute; reflexivity. Qed.

Lemma remove_tags_plain s tags :
  Forall (fun tag => exists rest, tag = 60%N :: rest) tags ->
  60%N ∉ s ->
  foldl (fun text tag => replace text tag []) s tags = s.
Proof.
  intros Htags Hplain. induction Htags as [|tag tags [rest ->] _ IH];
    [done|].
  simpl. unfold replace at 2. by rewrite replace_from_absent.
Qed.

(** X3: a string content without the character '<' holds no command tag:
    the extracted text is the content, stripped. In a list content the
    first block of type "text" decides: blocks before it that are not
    dicts, or are of another type, are passed over, and the blocks after
    it are not looked at. *)
Theorem extract_message_text_plain :
  (forall s, 60%N ∉ s -> extract_message_text (JStr s) = Ok (strip s))
  /\ (forall before block after s,
        Forall (fun other => forall ty,
                  py_get other (py "type") JNull = Ok ty ->
                  eq_str ty (py "text") = false) before ->
        py_get block (py "type") JNull = Ok (JStr (py "text")) ->
        py_get block (py "text") (JStr []) = Ok (JStr s) ->
        extract_message_text (JList (before ++ block :: after))
        = Ok (strip s))
  /\ (forall blocks,
        Forall (fun other => forall ty,
                  py_get other (py "type") JNull = Ok ty ->
                  eq_str ty (py "text") = false) blocks ->
        extract_message_text (JList blocks) = Ok []).
Proof.
  assert (Hskip : forall other rest,
             (forall ty, py_get other (py "type") JNull = Ok ty ->
                         eq_str ty (py "text") = false) ->
             first_text (other :: rest) = first_text rest).
  { intros other rest Hother. simpl. destruct other as [|b|z|f|t|l|d]; try done.
    change (py_get (JDict d) (py "type") JNull)
      with (Ok (default JNull (lookup_item d (py "type")))).
    by rewrite bind_ok, (Hother _ eq_refl). }
  split; [|split].
  - intros s Hplain. unfold extract_message_text.
    by rewrite (remove_tags_plain _ _ command_tags_open Hplain).
  - intros before block after s Hbefore Hty Htext.
    unfold extract_message_text.
    induction Hbefore as [|other before Hother _ IH].
    + simpl. destruct block as [|b|z|f|t|l|d]; try done.
      by rewrite Hty, bind_ok, eq_str_refl, Htext, bind_ok.
    + rewrite <- app_comm_cons. by rewrite Hskip.
  - intros blocks Hblocks. unfold extract_message_text.
    induction Hblocks as [|other blocks Hother _ IH]; [done|].
    by rewrite Hskip.
Qed.

(** ** [parse_timestamp] *)

(** X4: [parse_timestamp] raises [AttributeError] on anything that is not
    a string and otherwise only the [ValueError] of [fromisoformat]; and a
    timestamp written with the suffix "Z" gives what the same timestamp
    written with the suffix "+00:00" gives. *)
Theorem parse_timestamp_utc_suffix :
  (forall v, (forall s, v ≠ JStr s) -> parse_timestamp v = Raise AttributeError)
  /\ (forall s e, parse_timestamp (JStr s) = Raise e -> e = ValueError)
  /\ (forall s,
        parse_timestamp (JStr (s ++ py "Z"))
        = parse_timestamp (JStr (s ++ py "+00:00"))).
Proof.
  split; [|split].
  - intros v Hnot. destruct v; try done. by destruct (Hnot s).
  - intros s e. simpl. by destruct (isoformat_hms _); intros [=].
  - intros s. unfold parse_timestamp.
    replace (py "Z") with [90%N] by (by vm_compute).
    rewrite !replace_char_app.
    replace (replace [90%N] [90%N] (py "+00:00")) with (py "+00:00")
      by (by vm_compute).
    replace (replace (py "+00:00") [90%N] (py "+00:00")) with (py "+00:00")
      by (by vm_compute).
    done.
Qed.

(** ** Lines of the file tools *)

(** X5: the line of a file-mutating tool, and of "Read", shows what
    follows the last '/' of the file_path (the whole path when it has no
    '/'); a file_path that is not a string makes the rendering raise
    [AttributeError]. *)
Theorem tool_line_shows_basename (time : str) (tool details : json)
    (Htool : in_strs tool [py "Edit"; py "Write"; py "MultiEdit"] = true
             \/ tool = JStr (py "Read")) :
  (forall path name,
      py_get details (py "file_path") (JStr []) = Ok (JStr path) ->
      path = name \/ (exists dir, path = dir ++ 47%N :: name) ->
      47%N ∉ name ->
      render_event (EvTool time tool details)
      = Ok (py "- "
            ++ (if eq_str tool (py "Read") then [128065%N; 65039%N] ++ py " Read: `"
                else [128221%N] ++ py " Modified: `")
            ++ name ++ py "`" ++ nl))
  /\ (forall v,
        py_get details (py "file_path") (JStr []) = Ok v ->
        (forall s, v ≠ JStr s) ->
        render_event (EvTool time tool details) = Raise AttributeError).
Proof.
  assert (Hcases : eq_str tool (py "Bash") = false
                   /\ (in_strs tool mutating_tools = true
                       /\ eq_str tool (py "Read") = false
                       \/ in_strs tool mutating_tools = false
                          /\ eq_str tool (py "Read") = true)).
  { destruct Htool as [Hmutating| ->]; [|by vm_compute; auto].
    fold mutating_tools in Hmutating.
    destruct (mutating_cases _ Hmutating) as [->|[->| ->]];
      by vm_compute; auto. }
  destruct Hcases as [Hbash Hcases].
  split.
  - intros path name Hpath Hshape Hplain.
    assert (Hname : basename (JStr path) = Ok name).
    { destruct Hshape as [->|[dir ->]];
        [by apply basename_plain|by apply basename_after]. }
    unfold render_event. rewrite Hbash.
    destruct Hcases as [[Hmutating Hread]|[Hmutating Hread]];
      rewrite Hmutating, Hread, Hpath, bind_ok, Hname, bind_ok;
      unfold modified, read; by rewrite <- !app_assoc.
  - intros v Hpath Hnot.
    assert (Hname : basename v = Raise AttributeError).
    { destruct v; try done. by destruct (Hnot s). }
    unfold render_event. rewrite Hbash.
    by destruct Hcases as [[Hmutating Hread]|[Hmutating Hread]];
      rewrite Hmutating, ?Hread, Hpath, bind_ok, Hname.
Qed.

(** ** The parsing pass as a sequence of moves *)

Lemma process_block_moves timestamp st item st' :
  process_block timestamp st item = Ok st' -> st' = st \/ moves st st'.
Proof.
  intros Hblock. unfold process_block in Hblock.
  bind_as Hblock ty Hty. destruct (eq_str ty (py "tool_use")).
  - bind_as Hblock name Hname. bind_as Hblock uses Huses.
    bind_as Hblock files Hfiles. bind_as Hblock time Htime.
    bind_as Hblock details Hdetails. injection Hblock as <-.
    unfold dict_incr in Huses.
    destruct (hashable name) eqn:Hhash; [|done]. injection Huses as <-.
    right. eapply moves_tool; [exact Htime|exact Hhash|].
    unfold tracks. destruct (in_strs name mutating_tools); [|by injection Hfiles].
    bind_as Hfiles input Hinput. bind_as Hfiles file_path Hpath.
    rewrite Hinput in Hdetails. injection Hdetails as <-.
    exists file_path. split; [done|].
    destruct (truthy file_path); [done|by injection Hfiles].
  - destruct (eq_str ty (py "text")); [|left; by injection Hblock].
    bind_as Hblock t Ht. bind_as Hblock text Hstrip.
    case_bool_decide as Hempty; [left; by injection Hblock|].
    bind_as Hblock time Htime. injection Hblock as <-.
    apply py_strip_ok in Hstrip as (s & _ & ->).
    right. eapply moves_assistant; [exact Htime|done|apply strip_trimmed].
Qed.

Lemma for_each_moves {A : Type}
    (step : parse_state -> A -> result parse_state) st l st' :
  (forall st x st', step st x = Ok st' -> rtc moves st st') ->
  for_each step st l = Ok st' -> rtc moves st st'.
Proof.
  intros Hstep. revert st. induction l as [|x l IH]; intros st Hloop.
  - injection Hloop as <-. constructor.
  - simpl in Hloop. bind_as Hloop st1 Hx.
    etrans; [by eapply Hstep|by apply IH].
Qed.

Lemma process_line_moves st line st' :
  process_line st line = Ok st' -> rtc moves st st'.
Proof.
  unfold process_line. destruct (json_loads line) as [event| |e];
    [|intros [= <-]; constructor|done].
  intros Hevent. unfold process_event in Hevent.
  bind_as Hevent timestamp Hts. bind_as Hevent ty Hty.
  destruct (eq_str ty (py "user")).
  - bind_as Hevent message Hmsg. bind_as Hevent content Hcontent.
    bind_as Hevent text Htext.
    destruct (_ && _) eqn:Hkeep; [|injection Hevent as <-; constructor].
    bind_as Hevent time Htime. injection Hevent as <-.
    apply andb_true_iff in Hkeep as [Hnonempty Hrunning].
    apply negb_true_iff in Hnonempty, Hrunning.
    apply bool_decide_eq_false in Hnonempty.
    apply rtc_once. eapply moves_user; [exact Htime|done| |done].
    by apply (extract_trimmed content).
  - destruct (eq_str ty (py "assistant"));
      [|injection Hevent as <-; constructor].
    bind_as Hevent message Hmsg. bind_as Hevent content Hcontent.
    eapply for_each_moves; [|exact Hevent].
    intros st1 item st2 Hblock.
    destruct (process_block_moves _ _ _ _ Hblock) as [->|Hmove];
      [constructor|by apply rtc_once].
Qed.

Lemma parse_lines_moves lines st :
  parse_lines lines = Ok st -> rtc moves initial st.
Proof. apply for_each_moves, process_line_moves. Qed.

(** An invariant of the moves holds of every parse. *)
Lemma parse_lines_invariant (P : parse_state -> Prop) lines st :
  P initial ->
  (forall st st', P st -> moves st st' -> P st') ->
  parse_lines lines = Ok st -> P st.
Proof.
  intros Hinit Hstep Hparse. apply parse_lines_moves in Hparse.
  revert st Hparse. apply rtc_ind_r; [exact Hinit|].
  intros st st' _ Hmove Hst. by eapply Hstep.
Qed.

(** ** The usage counter *)

Lemma key_eqb_JStr_r k name : key_eqb k (JStr name) = eq_str k name.
Proof. by destruct k. Qed.

Lemma key_eqb_JStr_l k name : key_eqb (JStr name) k = true -> k = JStr name.
Proof.
  destruct k; simpl; try done. intros Heq. by apply str_eqb_eq in Heq as ->.
Qed.

Lemma count_of_incr_str k c name :
  count_of (incr k c) (JStr name)
  = (if eq_str k name then S (count_of c (JStr name))
     else count_of c (JStr name)).
Proof.
  induction c as [|[k' n] c IH]; simpl.
  - rewrite key_eqb_JStr_r. by destruct (eq_str k name).
  - destruct (key_eqb k' k) eqn:Hk; simpl; rewrite !key_eqb_JStr_r.
    + destruct (eq_str k' name) eqn:Hk'.
      * apply eq_str_true in Hk' as ->. apply key_eqb_JStr_l in Hk as ->.
        by rewrite eq_str_refl.
      * destruct (eq_str k name) eqn:Hname; [|done].
        apply eq_str_true in Hname as ->.
        by rewrite key_eqb_JStr_r, Hk' in Hk.
    + destruct (eq_str k' name) eqn:Hk'; [|exact IH].
      destruct (eq_str k name) eqn:Hname; [|done].
      apply eq_str_true in Hname as ->.
      by rewrite key_eqb_JStr_r, Hk' in Hk.
Qed.

Lemma invocations_snoc name evs e :
  invocations name (evs ++ [e])
  = (invocations name evs + if is_tool name e then 1 else 0)%nat.
Proof.
  unfold invocations. rewrite List.filter_app, length_app. simpl.
  by destruct (is_tool name e).
Qed.

(** X6: after a parse, the count the usage counter holds for a tool name
    is the number of recorded invocations of that tool: the Tool Usage
    list and the timeline events agree. *)
Theorem usage_counts_invocations (lines : list str) (st : parse_state)
    (Hparse : parse_lines lines = Ok st) :
  forall name,
    count_of (tool_uses st) (JStr name) = invocations name (events st).
Proof.
  pattern st. eapply parse_lines_invariant; [done| |exact Hparse].
  clear. intros st1 st2 Hinv Hmove name. specialize (Hinv name).
  destruct Hmove; cbn [events tool_uses]; rewrite invocations_snoc;
    cbn [is_tool]; [lia|lia|].
  rewrite count_of_incr_str, Hinv. destruct (eq_str name0 name); lia.
Qed.

Lemma incr_Forall_key (Q : json -> Prop) k c :
  Forall (fun entry => Q entry.1) c -> Q k ->
  Forall (fun entry : json * nat => Q entry.1) (incr k c).
Proof.
  intros Hc Hk. induction Hc as [|[k' n] c Hk' Hc IH]; simpl.
  - by repeat constructor.
  - destruct (key_eqb k' k); by constructor.
Qed.

Lemma incr_keys_apart k c : keys_apart c -> keys_apart (incr k c).
Proof.
  induction c as [|[k' n] c IH]; simpl; [by split|].
  intros [Hhead Hrest]. destruct (key_eqb k' k) eqn:Hk; simpl; [done|].
  split; [|by apply IH].
  by apply (incr_Forall_key (fun key => key_eqb k' key = false)).
Qed.

Lemma incr_positive k c :
  Forall (fun entry => (1 <= entry.2)%nat) c ->
  Forall (fun entry : json * nat => (1 <= entry.2)%nat) (incr k c).
Proof.
  induction 1 as [|[k' n] c Hn Hc IH]; simpl.
  - repeat constructor.
  - destruct (key_eqb k' k); constructor; simpl in *; try done. lia.
Qed.

Lemma incr_sum k c :
  sum_list ((incr k c).*2) = S (sum_list (c.*2)).
Proof.
  induction c as [|[k' n] c IH]; [done|]. cbn [incr].
  destruct (key_eqb k' k); rewrite !fmap_cons; cbn [snd];
    change (sum_list (?x :: ?l)) with (x + sum_list l)%nat;
    [lia|rewrite IH; lia].
Qed.

Lemma keys_apart_NoDup c :
  keys_apart c -> Forall (fun entry => hashable entry.1 = true) c ->
  NoDup (c.*1).
Proof.
  induction c as [|[k n] c IH]; simpl; [constructor|].
  intros [Hhead Hrest] Hhash. apply Forall_cons in Hhash as [Hk Hhash].
  constructor; [|by apply IH].
  intros Hin. apply list_elem_of_fmap in Hin as ([k' n'] & Hk' & Hin).
  simpl in Hk'. subst k'.
  rewrite Forall_forall in Hhead. specialize (Hhead _ Hin). simpl in Hhead.
  by rewrite key_eqb_refl in Hhead.
Qed.

(** X7: after a parse, the usage counter has one entry for each tool
    name (no two of its keys are equal, as Python compares them), every
    count in it is at least 1, and the counts add up to the number of
    tool events recorded. *)
Theorem usage_counter_is_sound (lines : list str) (st : parse_state)
    (Hparse : parse_lines lines = Ok st) :
  keys_apart (tool_uses st)
  /\ NoDup ((tool_uses st).*1)
  /\ Forall (fun entry => (1 <= entry.2)%nat) (tool_uses st)
  /\ sum_list ((tool_uses st).*2)
     = length (List.filter is_tool_event (events st)).
Proof.
  enough (keys_apart (tool_uses st)
          /\ Forall (fun entry => hashable entry.1 = true) (tool_uses st)
          /\ Forall (fun entry => (1 <= entry.2)%nat) (tool_uses st)
          /\ sum_list ((tool_uses st).*2)
             = length (List.filter is_tool_event (events st)))
    as (Hapart & Hhash & Hpos & Hsum).
  { repeat split; try done. by apply keys_apart_NoDup. }
  pattern st. eapply parse_lines_invariant; [by repeat split| |exact Hparse].
  clear. intros st1 st2 (Hapart & Hhash & Hpos & Hsum) Hmove.
  destruct Hmove; cbn [events tool_uses];
    rewrite List.filter_app, length_app; simpl;
    [by rewrite Nat.add_0_r..|].
  split; [by apply incr_keys_apart|].
  split; [by apply (incr_Forall_key (fun key => hashable key = true))|].
  split; [by apply incr_positive|].
  rewrite incr_sum, Hsum. lia.
Qed.

(** ** The set of modified files, and the records *)

(** X8: after a parse, the strings in the set of modified files are
    exactly the non-empty file_paths of the recorded events of the
    file-mutating tools; and every element of the set, string or not, is
    truthy and hashable. *)
Theorem modified_files_are_the_paths (lines : list str) (st : parse_state)
    (Hparse : parse_lines lines = Ok st) :
  (forall path,
      JStr path ∈ files_modified st
      <-> path ≠ []
          /\ exists time tool details,
              EvTool time tool details ∈ events st
              /\ in_strs tool [py "Edit"; py "Write"; py "MultiEdit"] = true
              /\ py_get details (py "file_path") (JStr []) = Ok (JStr path))
  /\ Forall (fun x => truthy x = true /\ hashable x = true)
       (files_modified st).
Proof.
  fold mutating_tools.
  enough ((forall x, x ∈ files_modified st ->
             truthy x = true /\ hashable x = true
             /\ exists time tool details,
                 EvTool time tool details ∈ events st
                 /\ in_strs tool mutating_tools = true
                 /\ py_get details (py "file_path") (JStr []) = Ok x)
          /\ (forall time tool details path,
                EvTool time tool details ∈ events st ->
                in_strs tool mutating_tools = true ->
                py_get details (py "file_path") (JStr []) = Ok (JStr path) ->
                path ≠ [] -> JStr path ∈ files_modified st))
    as [Hfrom Hto].
  { split.
    - intros path. split.
      + intros Hin. destruct (Hfrom _ Hin) as (Htruthy & _ & Hevent).
        split; [|done]. intros ->. by vm_compute in Htruthy.
      + intros (Hne & time & tool & details & Hev & Htool & Hpath). eauto.
    - apply Forall_forall. intros x Hx.
      by destruct (Hfrom x Hx) as (? & ? & _). }
  pattern st. eapply parse_lines_invariant; [| |exact Hparse]; clear.
  { split; [by intros x Hx; apply elem_of_nil in Hx|].
    by intros time tool details path Hev; apply elem_of_nil in Hev. }
  intros st1 st2 [Hfrom Hto] Hmove.
  assert (Hkeep : forall x,
             (exists time tool details,
                 EvTool time tool details ∈ events st1
                 /\ in_strs tool mutating_tools = true
                 /\ py_get details (py "file_path") (JStr []) = Ok x) ->
             forall e, exists time tool details,
                 EvTool time tool details ∈ events st1 ++ [e]
                 /\ in_strs tool mutating_tools = true
                 /\ py_get details (py "file_path") (JStr []) = Ok x).
  { intros x (time & tool & details & Hev & Hrest) e.
    exists time, tool, details. split; [|done]. apply elem_of_app. by left. }
  destruct Hmove as [st1 ts time text _ _ _ _|st1 ts time text _ _ _
                    |st1 ts time name details files _ Hhash Htracks];
    cbn [events files_modified].
  1,2: split;
    [intros x Hx; destruct (Hfrom x Hx) as (? & ? & Hevent);
     repeat split; try done; by apply Hkeep
    |intros time' tool details path Hev Htool Hpath Hne;
     apply elem_of_app in Hev as [Hev|Hev];
     [by eapply Hto|by apply list_elem_of_singleton in Hev]].
  unfold tracks in Htracks.
  destruct (in_strs name mutating_tools) eqn:Hmutating.
  - destruct Htracks as (file_path & Hpath & Hadd).
    destruct (truthy file_path) eqn:Htruthy.
    + destruct (set_add_elem _ _ _ Hadd) as [Hold Hnew]. split.
      * intros x Hx. apply Hnew in Hx as [Hx| ->].
        -- destruct (Hfrom x Hx) as (? & ? & Hevent).
           repeat split; try done. by apply Hkeep.
        -- split; [done|]. split.
           { unfold set_add in Hadd. by destruct (hashable file_path). }
           exists time, name, details. split; [|done].
           apply elem_of_app. right. by apply list_elem_of_singleton.
      * intros time' tool details' path Hev Htool Hpath' Hne.
        apply elem_of_app in Hev as [Hev|Hev]; [by eapply Hold, Hto|].
        apply list_elem_of_singleton in Hev. injection Hev as -> -> ->.
        rewrite Hpath in Hpath'. injection Hpath' as ->.
        by eapply set_add_str.
    + subst files. split.
      * intros x Hx. destruct (Hfrom x Hx) as (? & ? & Hevent).
        repeat split; try done. by apply Hkeep.
      * intros time' tool details' path Hev Htool Hpath' Hne.
        apply elem_of_app in Hev as [Hev|Hev]; [by eapply Hto|].
        apply list_elem_of_singleton in Hev. injection Hev as -> -> ->.
        rewrite Hpath in Hpath'. injection Hpath' as ->.
        simpl in Htruthy. by rewrite bool_decide_eq_false_2 in Htruthy.
  - subst files. split.
    + intros x Hx. destruct (Hfrom x Hx) as (? & ? & Hevent).
      repeat split; try done. by apply Hkeep.
    + intros time' tool details' path Hev Htool Hpath' Hne.
      apply elem_of_app in Hev as [Hev|Hev]; [by eapply Hto|].
      apply list_elem_of_singleton in Hev. injection Hev as -> -> ->.
      by rewrite Hmutating in Htool.
Qed.

Lemma truncate_nonempty n text : text ≠ [] -> truncate n text ≠ [].
Proof.
  unfold truncate. destruct (n <? length text)%nat; [|done].
  intros _ Hnil. apply app_eq_nil in Hnil as [_ Hdots].
  by vm_compute in Hdots.
Qed.

Lemma truncate_length n text : (length (truncate n text) <= n + 3)%nat.
Proof.
  unfold truncate. destruct (Nat.ltb_spec n (length text)); [|lia].
  rewrite length_app, length_take.
  replace (length ellipsis) with 3%nat by (by vm_compute). lia.
Qed.

Lemma truncate_head n text c :
  (0 < n)%nat -> head (truncate n text) = Some c -> head text = Some c.
Proof.
  intros Hn. unfold truncate.
  destruct (Nat.ltb_spec n (length text)) as [Hlong|_]; [|done].
  destruct n; [lia|]. destruct text; [simpl in Hlong; lia|done].
Qed.

Lemma startswith_take p s n rest :
  (length p <= n)%nat -> (n <= length s)%nat ->
  startswith (take n s ++ rest) p = startswith s p.
Proof.
  revert s n. induction p as [|c p IH]; intros s n Hp Hs.
  - by rewrite !startswith_nil.
  - destruct n; simpl in Hp; [lia|]. destruct s as [|d s]; simpl in Hs; [lia|].
    simpl. f_equal. apply IH; lia.
Qed.

Lemma truncate_startswith text :
  startswith (truncate 100 text) is_running = startswith text is_running.
Proof.
  unfold truncate. destruct (Nat.ltb_spec 100 (length text)); [|done].
  apply startswith_take; [|lia].
  replace (length is_running) with 11%nat by (by vm_compute). lia.
Qed.

(** X9: every event a parse records is well kept: its time is a value
    [parse_timestamp] returned; a user text is not empty, is at most 103
    characters long, and starts with neither whitespace nor
    "is running…"; an assistant text is not empty and has no whitespace at
    either end; a tool name is hashable. *)
Theorem records_are_well_kept (lines : list str) (st : parse_state)
    (Hparse : parse_lines lines = Ok st) :
  Forall well_kept (events st).
Proof.
  pattern st. eapply parse_lines_invariant; [constructor| |exact Hparse].
  clear. intros st1 st2 Hinv Hmove.
  destruct Hmove as [st1 ts time text Htime Hne Htrim Hrun
                    |st1 ts time text Htime Hne Htrim
                    |st1 ts time name details files Htime Hhash _];
    cbn [events]; apply Forall_app; (split; [done|]);
    (constructor; [|constructor]); (split; [by exists ts|]).
  - split; [by apply truncate_nonempty|].
    split; [apply (truncate_length 100)|].
    split; [|by rewrite truncate_startswith].
    intros c Hc. apply truncate_head in Hc; [|lia]. by apply (proj1 Htrim).
  - done.
  - done.
Qed.

(** ** The order of the two lists of the statistics *)

#[local] Instance by_count_desc_trans : Transitive by_count_desc.
Proof. intros a b c. unfold by_count_desc. lia. Qed.

Lemma insert_by_count_sorted x l :
  Sorted by_count_desc l -> Sorted by_count_desc (insert_by_count x l).
Proof.
  induction 1 as [|y l Hl IH Hy]; simpl; [by repeat constructor|].
  destruct (Nat.ltb_spec x.2 y.2) as [Hlt|Hge].
  - constructor; [exact IH|].
    destruct Hy as [|z l Hz]; simpl.
    + constructor. unfold by_count_desc. lia.
    + destruct (x.2 <? z.2)%nat; constructor; [done|].
      unfold by_count_desc. lia.
  - constructor; [by constructor|]. constructor. exact Hge.
Qed.

Lemma insert_by_count_filter n x l :
  List.filter (fun item => (item.2 =? n)%nat) (insert_by_count x l)
  = List.filter (fun item => (item.2 =? n)%nat) (x :: l).
Proof.
  induction l as [|y l IH]; [done|]. cbn [insert_by_count].
  destruct (Nat.ltb_spec x.2 y.2) as [Hlt|Hge]; [|done].
  cbn [List.filter] in *. rewrite IH.
  destruct (Nat.eqb_spec x.2 n), (Nat.eqb_spec y.2 n); try done. lia.
Qed.

(** X10: the Tool Usage list is the items of the counter, all of them and
    no other, by descending count; items of equal count stay in the order
    in which the counter holds them (the order of first use). *)
Theorem tool_usage_order (items : list (json * nat)) :
  StronglySorted by_count_desc (sorted_by_count items)
  /\ sorted_by_count items ≡ₚ items
  /\ forall n,
      List.filter (fun item => (item.2 =? n)%nat) (sorted_by_count items)
      = List.filter (fun item => (item.2 =? n)%nat) items.
Proof.
  split; [|split; [apply sorted_by_count_perm|]].
  - apply Sorted_StronglySorted; [apply _|].
    induction items as [|x items IH]; [constructor|].
    by apply insert_by_count_sorted.
  - intros n. induction items as [|x items IH]; [done|].
    cbn [sorted_by_count foldr]. rewrite insert_by_count_filter.
    cbn [List.filter]. unfold sorted_by_count in IH. by rewrite IH.
Qed.

Lemma str_leb_antisym a b :
  str_leb a b = true -> str_leb b a = true -> a = b.
Proof.
  revert b. induction a as [|c a IH]; intros [|d b]; simpl; try done.
  destruct (N.ltb_spec c d), (N.ltb_spec d c), (N.eqb_spec c d),
    (N.eqb_spec d c); simpl; try done; try lia.
  intros Hab Hba. subst. f_equal. by apply IH.
Qed.

#[local] Instance str_le_total' : Total str_le.
Proof. intros a b. apply str_leb_total. Qed.

#[local] Instance str_le_trans' : Transitive str_le.
Proof. intros a b c. apply str_leb_trans. Qed.

#[local] Instance str_le_antisym : AntiSymm (=) str_le.
Proof. intros a b. apply str_leb_antisym. Qed.

Lemma merge_sort_perm paths1 paths2 :
  paths1 ≡ₚ paths2 -> merge_sort str_le paths1 = merge_sort str_le paths2.
Proof.
  intros Hperm. apply (Sorted_unique str_le).
  - apply (Sorted_merge_sort _).
  - apply (Sorted_merge_sort _).
  - by rewrite !merge_sort_Permutation.
Qed.

(** X11: the report does not depend on the order in which the files were
    first modified: two sets of paths with the same elements give the
    same report. *)
Theorem report_ignores_modification_order (events : list event)
    (tool_uses : list (json * nat)) (paths1 paths2 : list str)
    (Hsame : paths1 ≡ₚ paths2) :
  generate_markdown events tool_uses (JStr <$> paths1)
  = generate_markdown events tool_uses (JStr <$> paths2).
Proof.
  assert (Hsorted : py_sorted (JStr <$> paths1) = py_sorted (JStr <$> paths2)).
  { unfold py_sorted. rewrite !all_strs_fmap.
    by rewrite (merge_sort_perm _ _ Hsame). }
  assert (Hnone : bool_decide (JStr <$> paths1 = [])
                  = bool_decide (JStr <$> paths2 = [])).
  { destruct paths1 as [|p1 paths1].
    - by apply Permutation_nil_l in Hsame as <-.
    - destruct paths2 as [|p2 paths2]; [|done].
      by apply Permutation_nil_r in Hsame. }
  unfold generate_markdown. destruct events as [|first rest]; [done|].
  rewrite !length_fmap, (Permutation_length Hsame), Hnone, Hsorted. done.
Qed.

(** ** How a parse fails *)

Lemma bind_raise_inv {A B : Type} (m : result A) (f : A -> result B) e :
  (m ≫= f) = Raise e -> m = Raise e \/ exists a, m = Ok a /\ f a = Raise e.
Proof. destruct m as [a|e']; intros Hm; [right; by exists a|].
  left. simpl in Hm. by injection Hm as ->.
Qed.

Ltac bind_split H a Ha :=
  apply bind_raise_inv in H as [H|(a & Ha & H)].

Lemma dict_incr_raise c k e : dict_incr c k = Raise e -> e = TypeError.
Proof. unfold dict_incr. destruct (hashable k); by intros [=]. Qed.

Lemma set_add_raise s x e : set_add s x = Raise e -> e = TypeError.
Proof. unfold set_add. destruct (hashable x); by intros [=]. Qed.

Lemma parse_timestamp_raise timestamp e :
  parse_timestamp timestamp = Raise e ->
  e = AttributeError \/ e = ValueError /\ exists s, timestamp = JStr s.
Proof.
  destruct timestamp; simpl; try (intros [= <-]; by left).
  destruct (isoformat_hms _); intros [= <-]. right. eauto.
Qed.

Lemma for_each_raise_inv {A S : Type} (step : S -> A -> result S) st l e :
  for_each step st l = Raise e ->
  exists before x after st1,
    l = before ++ x :: after
    /\ for_each step st before = Ok st1
    /\ step st1 x = Raise e.
Proof.
  revert st. induction l as [|x l IH]; intros st Hloop; [done|].
  simpl in Hloop. bind_split Hloop st1 Hx.
  - by exists [], x, l, st.
  - destruct (IH _ Hloop) as (before & y & after & st2 & -> & Hbefore & Hy).
    exists (x :: before), y, after, st2. split; [done|]. split; [|done].
    simpl. by rewrite Hx.
Qed.

Lemma process_block_raise timestamp st item e :
  process_block timestamp st item = Raise e ->
  e = AttributeError \/ e = TypeError \/ parse_timestamp timestamp = Raise e.
Proof.
  intros Hblock. unfold process_block in Hblock.
  bind_split Hblock ty Hty; [left; by eapply py_get_raise|].
  destruct (eq_str ty (py "tool_use")).
  - bind_split Hblock name Hname; [left; by eapply py_get_raise|].
    bind_split Hblock uses Huses;
      [right; left; by eapply dict_incr_raise|].
    bind_split Hblock files Hfiles.
    { destruct (in_strs name mutating_tools); [|done].
      bind_split Hblock input Hinput; [left; by eapply py_get_raise|].
      bind_split Hblock file_path Hpath; [left; by eapply py_get_raise|].
      destruct (truthy file_path); [|done].
      right; left. by eapply set_add_raise. }
    bind_split Hblock time Htime; [by right; right|].
    bind_split Hblock details Hdetails; [left; by eapply py_get_raise|done].
  - destruct (eq_str ty (py "text")); [|done].
    bind_split Hblock t Ht; [left; by eapply py_get_raise|].
    bind_split Hblock text Hstrip;
      [left; by apply py_strip_raise in Hblock as [-> _]|].
    case_bool_decide; [done|].
    bind_split Hblock time Htime; [by right; right|done].
Qed.

Lemma process_event_raise st event e :
  process_event st event = Raise e ->
  e = AttributeError \/ e = TypeError
  \/ exists timestamp,
      py_get event (py "timestamp") (JStr []) = Ok timestamp
      /\ parse_timestamp timestamp = Raise e.
Proof.
  intros Hevent. unfold process_event in Hevent.
  bind_split Hevent timestamp Hts; [left; by eapply py_get_raise|].
  bind_split Hevent ty Hty; [left; by eapply py_get_raise|].
  destruct (eq_str ty (py "user")).
  - bind_split Hevent message Hmsg; [left; by eapply py_get_raise|].
    bind_split Hevent content Hcontent; [left; by eapply py_get_raise|].
    bind_split Hevent text Htext.
    { left. destruct content; simpl in Hevent; try done.
      by apply first_text_raise in Hevent as [-> _]. }
    destruct (_ && _); [|done].
    bind_split Hevent time Htime; [|done]. right; right. eauto.
  - destruct (eq_str ty (py "assistant")); [|done].
    bind_split Hevent message Hmsg; [left; by eapply py_get_raise|].
    bind_split Hevent content Hcontent; [left; by eapply py_get_raise|].
    apply for_each_raise_inv in Hevent
      as (before & item & after & st1 & _ & _ & Hitem).
    apply process_block_raise in Hitem as [->|[->|Htime]]; eauto.
Qed.

(** X12: a parse that fails, fails at the first line that raises, and the
    lines after it are not looked at. The line either makes [json.loads]
    raise something other than [JSONDecodeError], or decodes to a value
    whose processing raises [AttributeError], [TypeError], or the
    [ValueError] of a timestamp string that [fromisoformat] rejects; no
    other exception leaves the parsing pass. *)
Theorem parse_failure_cause (lines : list str) (e : exn)
    (Hfail : parse_lines lines = Raise e) :
  exists before line after st,
    lines = before ++ line :: after
    /\ parse_lines before = Ok st
    /\ process_line st line = Raise e
    /\ (forall others, parse_lines (before ++ line :: others) = Raise e)
    /\ (json_loads line = LoadsRaises e
        \/ exists event,
            json_loads line = Loaded event
            /\ (e = AttributeError \/ e = TypeError
                \/ e = ValueError
                   /\ exists s,
                       py_get event (py "timestamp") (JStr []) = Ok (JStr s)
                       /\ parse_timestamp (JStr s) = Raise ValueError)).
Proof.
  unfold parse_lines in *.
  apply for_each_raise_inv in Hfail
    as (before & line & after & st & -> & Hbefore & Hline).
  exists before, line, after, st. split; [done|]. split; [done|].
  split; [done|]. split; [intros others; by eapply for_each_raise|].
  unfold process_line in Hline.
  destruct (json_loads line) as [event| |e'] eqn:Hloads; [|done|].
  - right. exists event. split; [done|].
    apply process_event_raise in Hline as [->|[->|(ts & Hts & Htime)]]; auto.
    pose proof Htime as Hkind.
    apply parse_timestamp_raise in Hkind as [->|[-> [s ->]]]; auto.
    right; right. eauto.
  - left. by injection Hline as ->.
Qed.

(** ** Entries with missing or odd parts *)

(** X13: an entry without a "message" key records nothing and raises
    nothing, whatever its type and its timestamp; neither does an
    assistant entry whose content is not a list. *)
Theorem entry_without_message (st : parse_state) (d : list (str * json)) :
  (lookup_item d (py "message") = None ->
   process_event st (JDict d) = Ok st)
  /\ (forall message content,
        lookup_item d (py "type") = Some (JStr (py "assistant")) ->
        lookup_item d (py "message") = Some message ->
        py_get message (py "content") (JList []) = Ok content ->
        (forall blocks, content ≠ JList blocks) ->
        process_event st (JDict d) = Ok st).
Proof.
  split.
  - intros Hnone. unfold process_event. cbn [py_get].
    rewrite !bind_ok, Hnone. cbn [default py_get lookup_item].
    destruct (eq_str _ (py "user")).
    + rewrite !bind_ok.
      replace (extract_message_text (JStr [])) with (Ok (A:=str) [])
        by (by vm_compute).
      by rewrite bind_ok.
    + destruct (eq_str _ (py "assistant")); [|done].
      by rewrite !bind_ok.
  - intros message content Hty Hmsg Hcontent Hnot.
    unfold process_event. cbn [py_get].
    rewrite !bind_ok, Hty, Hmsg. cbn [default]. unfold id.
    replace (eq_str (JStr (py "assistant")) (py "user")) with false
      by (by vm_compute).
    rewrite eq_str_refl, Hcontent, bind_ok.
    destruct content; try done. by destruct (Hnot l).
Qed.

(** ** When the report renders *)

Lemma str_or_absent_get details k :
  str_or_absent details k = true ->
  exists s, py_get details k (JStr []) = Ok (JStr s).
Proof.
  destruct details as [| | | | | |d]; try done. simpl.
  destruct (lookup_item d k) as [[]|]; try done; eauto.
Qed.

Lemma basename_str s : exists name, basename (JStr s) = Ok name.
Proof. simpl. eauto. Qed.

Lemma renderable_renders e :
  renderable e = true -> exists line, render_event e = Ok line.
Proof.
  destruct e as [time text|time text|time tool details].
  - simpl. eauto.
  - simpl. destruct (200 <? length text)%nat; eauto.
  - unfold renderable, render_event.
    destruct (eq_str tool (py "Bash")).
    { intros Hcmd. apply str_or_absent_get in Hcmd as [cmd ->].
      rewrite bind_ok. cbn [py_len]. rewrite bind_ok.
      destruct (80 <? length cmd)%nat; [cbn [py_slice]; rewrite bind_ok|];
        eauto. }
    destruct (in_strs tool mutating_tools); cbn [orb].
    { intros Hpath. apply str_or_absent_get in Hpath as [path ->].
      rewrite bind_ok. destruct (basename_str path) as [name ->]. eauto. }
    destruct (eq_str tool (py "Read")).
    { intros Hpath. apply str_or_absent_get in Hpath as [path ->].
      rewrite bind_ok. destruct (basename_str path) as [name ->]. eauto. }
    destruct (eq_str tool (py "Grep")); [|eauto].
    destruct details; try done. cbn [py_get]. rewrite bind_ok. eauto.
Qed.

Lemma timeline_renders acc evs :
  Forall (fun e => renderable e = true) evs ->
  exists md,
    for_each (fun md event => line ← render_event event; Ok (md ++ line))
      acc evs = Ok md.
Proof.
  intros Hall. revert acc. induction Hall as [|e evs He _ IH]; intros acc.
  - by exists acc.
  - simpl. destruct (renderable_renders e He) as [line ->].
    rewrite !bind_ok. apply IH.
Qed.

(** X14: the report of a parse always renders when every recorded tool
    event has the fields its line shows in the type the line needs: a
    dict for input, in it a string (or nothing) for the command of
    "Bash" and for the file_path of "Edit", "Write", "MultiEdit" and
    "Read". User and assistant events never make the rendering fail. *)
Theorem parsed_report_renders (lines : list str) (st : parse_state)
    (Hparse : parse_lines lines = Ok st)
    (Htyped : Forall (fun e => renderable e = true) (events st)) :
  exists md,
    generate_markdown (events st) (tool_uses st) (files_modified st) = Ok md.
Proof.
  destruct (parse_lines_recorded _ _ Hparse) as [Hfrom _].
  assert (Hstrs : exists paths, files_modified st = JStr <$> paths).
  { apply all_JStr. intros x Hx.
    destruct (Hfrom x Hx) as (time & tool & details & Hev & Htool & Hpath).
    rewrite Forall_forall in Htyped. specialize (Htyped _ Hev).
    destruct (mutating_not_bash _ Htool) as [_ Hbash].
    unfold renderable in Htyped. rewrite Hbash, Htool in Htyped.
    cbn [orb] in Htyped.
    apply str_or_absent_get in Htyped as [s Hs].
    rewrite Hs in Hpath. injection Hpath as <-. eauto. }
  destruct Hstrs as [paths Hpaths].
  unfold generate_markdown. destruct (events st) as [|first rest] eqn:Hevents;
    [eauto|].
  destruct (timeline_renders
              (header (ev_time first)
                 (ev_time (default first (last (first :: rest)))))
              _ Htyped) as [md ->].
  rewrite bind_ok. case_bool_decide; [eauto|].
  unfold py_sorted. rewrite Hpaths, all_strs_fmap, bind_ok. eauto.
Qed.






End Further.

(** * The properties on the example runtime *)

Ltac run := vm_compute; reflexivity.

(** The worked examples of the specification. *)

Example hello_extracted :
  extract_message_text (jstr "  hello  ") = Ok (py "hello").
Proof. run. Qed.

Example hello_recorded :
  @process_line demo initial (py "hello")
  = Ok {| events := [EvUser (py "10:00:00") (py "hello")];
          tool_uses := [];
          files_modified := [] |}.
Proof. run. Qed.

Example running_suppressed :
  @process_line demo initial (py "running") = Ok initial.
Proof. run. Qed.

Example tags_removed :
  extract_message_text
    (jstr "<command-name>/init</command-name> <command-args></command-args>")
  = Ok (py "/init").
Proof. run. Qed.

Example array_line_raises :
  @process_line demo initial (py "array") = Raise AttributeError.
Proof. run. Qed.

Example same_path_twice :
  (st ← @parse_lines demo [py "write"; py "edit"]; Ok (files_modified st))
  = Ok [JStr (py "/a/b/c.txt")].
Proof. run. Qed.

Example ties_keep_their_order :
  sorted_by_count
    [(jstr "Read", 1%nat); (jstr "Bash", 2%nat); (jstr "Grep", 1%nat);
     (jstr "Edit", 2%nat)]
  = [(jstr "Bash", 2%nat); (jstr "Edit", 2%nat); (jstr "Read", 1%nat);
     (jstr "Grep", 1%nat)].
Proof. run. Qed.

Example true_is_one : key_eqb (JBool true) (JFloat (FFin 4 (-2))) = true.
Proof. run. Qed.

Lemma usage_on_wrong_arity_witness :
  stdout (@main demo [py "parse_session.py"])
  = py "Usage: python parse_session.py <jsonl_file>" ++ nl
  /\ stderr (@main demo [py "parse_session.py"]) = []
  /\ status (@main demo [py "parse_session.py"]) = Exit 1.
Proof.
  apply (@usage_on_wrong_arity demo [py "parse_session.py"]).
  simpl. lia.
Defined.

(** C2 as the specification has it fails: run without a file argument,
    the program leaves standard error empty; the usage message is on
    standard output. *)
Lemma usage_not_on_stderr :
  stderr (@main demo [py "parse_session.py"]) = []
  /\ stderr (@main demo [py "parse_session.py"])
     <> py "Usage: python parse_session.py <jsonl_file>" ++ nl
  /\ stdout (@main demo [py "parse_session.py"])
     = py "Usage: python parse_session.py <jsonl_file>" ++ nl.
Proof. split; [run|]. split; [vm_compute; discriminate|run]. Qed.

Lemma no_events_report_witness :
  @main demo [py "parse_session.py"; py "noise.jsonl"]
  = {| stdout := py "No events found in session." ++ nl;
       stderr := [];
       status := Exit 0 |}.
Proof.
  destruct (@no_events_report demo) as (_ & _ & Hmain).
  refine (proj2 (Hmain _ _ [py "not json"; py "{"; py "summary"] initial
                   _ _ _)); run.
Defined.

Lemma malformed_line_skipped_witness :
  @main demo [py "parse_session.py"; py "session.jsonl"]
  = @main demo [py "parse_session.py"; py "clean.jsonl"]
  /\ @main demo [py "parse_session.py"; py "fatal.jsonl"]
     = {| stdout := []; stderr := []; status := Uncaught ValueError |}.
Proof.
  destruct (@malformed_line_skipped demo (py "not json") ltac:(run))
    as (_ & _ & Hsame & Hfatal).
  split.
  - apply (Hsame _ _ _ [py "hello"]
             [py "write"; py "task"; py "edit"; py "write2"]); run.
  - refine (proj2 (Hfatal _ _ [py "hello"] (py "badstamp") [py "write"]
                     _ _ _ _ _ (or_introl (conj _ _)))); run.
Defined.



Lemma unrendered_tool_counted_witness :
  exists st' details,
    @process_block demo demo_stamp initial (demo_block "Task" (obj []))
    = Ok st'
    /\ events st' = [EvTool (py "10:00:00") (JStr (py "Task")) details]
    /\ @render_event demo (EvTool (py "10:00:00") (JStr (py "Task")) details)
       = Ok []
    /\ count_of (tool_uses st') (JStr (py "Task")) = 1%nat
    /\ forall first rest files md,
        @generate_markdown demo (first :: rest) (tool_uses st') files
        = Ok md ->
        exists before lines tail,
          md = before ++ nl ++ py "### Tool Usage:" ++ nl
               ++ concat lines ++ tail
          /\ (py "- " ++ py "Task" ++ py ": " ++ py "1" ++ py " times" ++ nl)
             ∈ lines.
Proof.
  destruct (@unrendered_tool_counted demo demo_stamp initial
              (demo_block "Task" (obj [])) (JStr (py "Task"))
              (py "10:00:00")
              ltac:(run) ltac:(run) ltac:(run) ltac:(run) ltac:(run)
              ltac:(run) ltac:(run) ltac:(run))
    as (st' & details & key & Hblock & Hev & Hrender & Hcount & _ & Hkey
        & _ & Hlist & _).
  exists st', details. split; [exact Hblock|]. split; [exact Hev|].
  split; [exact Hrender|]. split; [exact Hcount|].
  intros first rest files md Hmd.
  destruct (Hlist first rest files md Hmd)
    as (rendered & lines & tail & _ & Hshape & _ & Hline).
  rewrite (Hkey (py "Task") eq_refl) in Hline.
  exists (header (ev_time first)
            (ev_time (default first (last (first :: rest))))
          ++ concat rendered ++ totals (first :: rest) files), lines, tail.
  split; [|exact Hline].
  rewrite Hshape. by rewrite <- !app_assoc.
Defined.

Lemma records_keep_line_order_witness :
  (exists st,
      @parse_lines demo [py "hello"; py "not json"; py "write"; py "task"]
      = Ok st
      /\ events st
         = concat (@line_events demo
                     <$> [py "hello"; py "not json"; py "write"; py "task"]))
  /\ (exists st',
        @process_event demo initial
          (demo_assistant [demo_text "hi"; demo_block "Write" demo_path;
                           demo_text "bye"; demo_block "Task" (obj [])])
        = Ok st'
        /\ events st'
           = concat (@block_events demo demo_stamp
                       <$> [demo_text "hi"; demo_block "Write" demo_path;
                            demo_text "bye"; demo_block "Task" (obj [])])
        /\ concat (@block_events demo demo_stamp
                     <$> [demo_text "hi"; demo_block "Write" demo_path;
                          demo_text "bye"; demo_block "Task" (obj [])])
           = [EvAssistant (py "10:00:00") (py "hi");
              EvTool (py "10:00:00") (JStr (py "Write")) demo_path;
              EvAssistant (py "10:00:00") (py "bye");
              EvTool (py "10:00:00") (JStr (py "Task")) (obj [])]).
Proof.
  destruct (@records_keep_line_order demo) as (Hlines & _ & Hentry & _ & _).
  split.
  - eexists. split; [run|]. apply Hlines. run.
  - eassert (Hdone : @process_event demo initial
                       (demo_assistant
                          [demo_text "hi"; demo_block "Write" demo_path;
                           demo_text "bye"; demo_block "Task" (obj [])])
                     = Ok _) by run.
    destruct (Hentry initial
                (demo_assistant
                   [demo_text "hi"; demo_block "Write" demo_path;
                    demo_text "bye"; demo_block "Task" (obj [])])
                demo_stamp
                (obj [("content",
                       JList [demo_text "hi"; demo_block "Write" demo_path;
                              demo_text "bye";
                              demo_block "Task" (obj [])])]%string)
                [demo_text "hi"; demo_block "Write" demo_path;
                 demo_text "bye"; demo_block "Task" (obj [])] _
                ltac:(run) ltac:(run) ltac:(run) ltac:(run) Hdone)
      as (Hevents & _ & _).
    eexists. split; [exact Hdone|]. split; [exact Hevents|run].
Defined.


Lemma timestamp_parsed_only_to_emit_witness :
  @process_event demo initial
    (obj [("type", jstr "system"); ("timestamp", jstr "garbage")]%string)
  = Ok initial
  /\ @process_event demo initial
       (obj [("type", jstr "user"); ("timestamp", JNull);
             ("message", obj [("content", jstr "   ")])]%string)
     = Ok initial
  /\ @process_event demo initial
       (demo_user (JStr (is_running ++ py " foo")))
     = Ok initial.
Proof.
  split; [|split].
  - destruct (@timestamp_parsed_only_to_emit demo initial
                (obj [("type", jstr "system");
                      ("timestamp", jstr "garbage")]%string))
      as (Hother & _ & _).
    apply (Hother (jstr "system")); run.
  - destruct (@timestamp_parsed_only_to_emit demo initial
                (obj [("type", jstr "user"); ("timestamp", JNull);
                      ("message", obj [("content", jstr "   ")])]%string))
      as (_ & Hquiet & _).
    apply (Hquiet (obj [("content", jstr "   ")]%string) (jstr "   ") []);
      try run.
    by left.
  - destruct (@timestamp_parsed_only_to_emit demo initial
                (demo_user (JStr (is_running ++ py " foo"))))
      as (_ & Hquiet & _).
    apply (Hquiet (obj [("content"%string, JStr (is_running ++ py " foo"))])
             (JStr (is_running ++ py " foo")) (is_running ++ py " foo"));
      try run.
    right. run.
Defined.

Lemma files_modified_listing_witness :
  exists st md paths,
    @parse_lines demo
      [py "hello"; py "not json"; py "write"; py "task"; py "edit";
       py "write2"]
    = Ok st
    /\ @generate_markdown demo (events st) (tool_uses st) (files_modified st)
       = Ok md
    /\ files_modified st ≡ₚ JStr <$> paths
    /\ NoDup paths
    /\ StronglySorted str_le paths.
Proof.
  eassert (Hparse : @parse_lines demo
                      [py "hello"; py "not json"; py "write"; py "task";
                       py "edit"; py "write2"] = Ok _) by run.
  match type of Hparse with
  | _ = Ok ?st =>
      eassert (Hreport : @generate_markdown demo (events st) (tool_uses st)
                           (files_modified st) = Ok _) by run
  end.
  destruct (@files_modified_listing demo _ _ _ Hparse Hreport)
    as (rendered & paths & _ & _ & _ & Hperm & Hnodup & Hsorted).
  eexists _, _, paths. eauto.
Defined.

(** ** The further properties on the example runtime *)

Ltac absent := apply (bool_decide_unpack _); vm_compute; exact I.

Lemma extracted_text_is_trimmed_witness :
  trimmed (py "hello") /\ strip (py "hello") = py "hello".
Proof.
  apply (extracted_text_is_trimmed (jstr "  hello  ") (py "hello")). run.
Defined.

Lemma extract_message_text_failure_witness :
  extract_message_text
    (JList [obj [("type", jstr "text"); ("text", JInt 5)]%string])
  = Raise AttributeError
  /\ exists blocks block v,
      JList [obj [("type", jstr "text"); ("text", JInt 5)]%string]
      = JList blocks
      /\ block ∈ blocks
      /\ py_get block (py "type") JNull = Ok (JStr (py "text"))
      /\ py_get block (py "text") (JStr []) = Ok v
      /\ forall s, v ≠ JStr s.
Proof.
  split; [run|].
  apply (extract_message_text_failure
           (JList [obj [("type", jstr "text"); ("text", JInt 5)]%string])
           AttributeError).
  run.
Defined.

Lemma extract_message_text_plain_witness :
  extract_message_text (jstr " hi ") = Ok (strip (py " hi "))
  /\ extract_message_text
       (JList [JInt 3; obj [("type", jstr "image")]%string;
               obj [("type", jstr "text"); ("text", jstr " a ")]%string;
               JNull])
     = Ok (strip (py " a ")).
Proof.
  destruct extract_message_text_plain as (Hplain & Hfirst & _).
  split.
  - apply Hplain. absent.
  - apply (Hfirst [JInt 3; obj [("type", jstr "image")]%string]
             (obj [("type", jstr "text"); ("text", jstr " a ")]%string)
             [JNull] (py " a ")); [|run|run].
    repeat constructor; intros ty Hty; vm_compute in Hty;
      (discriminate || (injection Hty as <-; reflexivity)).
Defined.

Lemma parse_timestamp_utc_suffix_witness :
  @parse_timestamp demo JNull = Raise AttributeError
  /\ @parse_timestamp demo (JStr (py "2025-07-27T10:00:00" ++ py "Z"))
     = @parse_timestamp demo (JStr (py "2025-07-27T10:00:00" ++ py "+00:00")).
Proof.
  destruct (@parse_timestamp_utc_suffix demo) as (Hother & _ & Hsuffix).
  split; [by apply Hother|apply Hsuffix].
Defined.

Lemma tool_line_shows_basename_witness :
  @render_event demo
    (EvTool (py "10:00:00") (JStr (py "Read")) demo_path)
  = Ok (py "- " ++ ([128065%N; 65039%N] ++ py " Read: `") ++ py "c.txt"
        ++ py "`" ++ nl).
Proof.
  destruct (@tool_line_shows_basename demo (py "10:00:00")
              (JStr (py "Read")) demo_path (or_intror eq_refl))
    as [Hshown _].
  apply (Hshown (py "/a/b/c.txt") (py "c.txt")); [run| |absent].
  right. exists (py "/a/b"). run.
Defined.

Lemma usage_counts_invocations_witness :
  exists st,
    @parse_lines demo [py "hello"; py "write"; py "task"; py "write2"]
    = Ok st
    /\ forall name,
        count_of (tool_uses st) (JStr name) = invocations name (events st).
Proof.
  eexists. split; [run|].
  apply (@usage_counts_invocations demo
           [py "hello"; py "write"; py "task"; py "write2"]).
  run.
Defined.

Lemma usage_counter_is_sound_witness :
  exists st,
    @parse_lines demo [py "hello"; py "write"; py "task"; py "write2"]
    = Ok st
    /\ NoDup ((tool_uses st).*1)
    /\ sum_list ((tool_uses st).*2)
       = length (List.filter is_tool_event (events st)).
Proof.
  eassert (Hparse : @parse_lines demo
                      [py "hello"; py "write"; py "task"; py "write2"]
                    = Ok _) by run.
  destruct (@usage_counter_is_sound demo _ _ Hparse)
    as (_ & Hnodup & _ & Hsum).
  eexists. eauto.
Defined.

Lemma modified_files_are_the_paths_witness :
  exists st,
    @parse_lines demo [py "hello"; py "write"; py "task"; py "write2"]
    = Ok st
    /\ Forall (fun x => truthy x = true /\ hashable x = true)
         (files_modified st).
Proof.
  eassert (Hparse : @parse_lines demo
                      [py "hello"; py "write"; py "task"; py "write2"]
                    = Ok _) by run.
  destruct (@modified_files_are_the_paths demo _ _ Hparse) as [_ Hall].
  eexists. eauto.
Defined.

Lemma records_are_well_kept_witness :
  exists st,
    @parse_lines demo [py "hello"; py "write"; py "task"; py "write2"]
    = Ok st
    /\ Forall (@well_kept demo) (events st).
Proof.
  eexists. split; [run|].
  apply (@records_are_well_kept demo
           [py "hello"; py "write"; py "task"; py "write2"]).
  run.
Defined.

Lemma report_ignores_modification_order_witness :
  @generate_markdown demo [EvUser (py "10:00:00") (py "hello")] []
    (JStr <$> [py "b.txt"; py "a.txt"])
  = @generate_markdown demo [EvUser (py "10:00:00") (py "hello")] []
      (JStr <$> [py "a.txt"; py "b.txt"]).
Proof.
  apply (@report_ignores_modification_order demo). apply Permutation_swap.
Defined.

Lemma parse_failure_cause_witness :
  exists before line after st,
    [py "hello"; py "badstamp"; py "write"] = before ++ line :: after
    /\ @parse_lines demo before = Ok st
    /\ @process_line demo st line = Raise ValueError.
Proof.
  destruct (@parse_failure_cause demo
              [py "hello"; py "badstamp"; py "write"] ValueError
              ltac:(run))
    as (before & line & after & st & Hsplit & Hbefore & Hline & _).
  by exists before, line, after, st.
Defined.

Lemma entry_without_message_witness :
  @process_event demo initial (obj [("type", jstr "user")]%string)
  = Ok initial
  /\ @process_event demo initial
       (obj [("type", jstr "assistant");
             ("message", obj [("content", jstr "text")])]%string)
     = Ok initial.
Proof.
  split.
  - apply (@entry_without_message demo initial
             [(py "type", jstr "user")]). run.
  - apply (proj2 (@entry_without_message demo initial
                    [(py "type", jstr "assistant");
                     (py "message",
                      obj [("content", jstr "text")]%string)])
             (obj [("content", jstr "text")]%string) (jstr "text"));
      try run.
    by intros blocks.
Defined.

Lemma parsed_report_renders_witness :
  exists st md,
    @parse_lines demo [py "hello"; py "write"; py "task"; py "write2"]
    = Ok st
    /\ @generate_markdown demo (events st) (tool_uses st) (files_modified st)
       = Ok md.
Proof.
  eassert (Hparse : @parse_lines demo
                      [py "hello"; py "write"; py "task"; py "write2"]
                    = Ok _) by run.
  destruct (@parsed_report_renders demo _ _ Hparse) as [md Hmd].
  { repeat constructor. }
  eexists _, md. eauto.
Defined.

